(** * Regolith: dependency installer and watch-mode profile runner

    A shallow embedding of the two Go source files of the repository:

    - [src/remote_filters.go] (package [src]): the dependency installer,
      embedded in [Module Src];
    - the profile runner (package [regolith]): workspace setup, the
      watch-mode run loops, the filter list runner and the expansion of a
      remote filter's [filter.json], embedded in [Module Regolith].

    Go functions with side effects become functions in a state monad over
    an explicit world (file system, fingerprint caches, pending
    interruption signals) that also carries a ghost trace of the calls
    that were made.  Go [error] values are kept as first-class values
    ([option error], [None] being [nil]), exactly as the source threads
    them.  The [goto start] loops take a fuel argument. *)

From stdpp Require Import gmap strings list fin_maps pretty.

Set Warnings "-register-all".

Open Scope string_scope.
Open Scope list_scope.

(** ** Go values shared by both packages *)

(** Named message templates of the error constructors.  The constants are
    declared elsewhere in the repository; only their identity matters, so
    each is a constructor of its own.  [Text] is a string literal written
    in place. *)
Inductive template :=
  | osMkdirError
  | osRemoveError
  | osCopyError
  | isDirNotADirError
  | runContextGetProfileError
  | setupTmpFilesError
  | exportProjectError
  | clearCachedStatesError
  | filterRunnerRunError
  | filterRunnerCheckError
  | jsonUnmarshalError
  | jsonPathMissingError
  | jsonPathTypeError
  | jsonPathParseError
  | createFilterRunnerError
  | filterJsonErrorInfo
  | Text (s : string).

(** The Go [error] values the code builds.  [WrappedErrorf], [WrapErrorf],
    [WrapError] and [PassError] are the repository's constructors, kept
    free; [ExternalError] is an error produced by a collaborator (the
    operating system, a filter process, the fetcher). *)
Inductive error :=
  | ExternalError (msg : string)
  | ErrNotExist
  | WrappedErrorf (t : template) (args : list string)
  | WrapErrorf (err : error) (t : template) (args : list string)
  | WrapError (err : error) (t : template)
  | PassError (err : error).

(** [os.IsNotExist]. *)
Definition os_IsNotExist (err : error) : bool :=
  match err with ErrNotExist => true | _ => false end.

(** Values decoded by [encoding/json] into [interface{}]. *)
Inductive JSON :=
  | JNull
  | JBool (b : bool)
  | JNumber (n : Z)
  | JString (s : string)
  | JArray (l : list JSON)
  | JObject (m : gmap string JSON).

Declare Scope go_scope.
Delimit Scope go_scope with go.

(** * Package [src]: remote_filters.go *)
Module Src.

(** Calls that leave the process, in the order they happen. *)
Inductive Event :=
  | Log (msg : string)
  | MkdirAll (path : string)
  | Fetch (dst src : string).

(** The part of the machine the installer touches: which paths exist, and
    the trace of calls made so far. *)
Record Sys := {
  paths : gset string;
  trace : list Event;
}.

(** [log.Fatal] prints and exits the process: the caller never resumes. *)
Inductive Outcome (A : Type) :=
  | Returned (a : A) (s : Sys)
  | Exited (s : Sys).
Arguments Returned {A} a s.
Arguments Exited {A} s.

Definition final {A} (o : Outcome A) : Sys :=
  match o with Returned _ s => s | Exited s => s end.

Definition Proc (A : Type) : Type := Sys -> Outcome A.

Definition ret {A} (a : A) : Proc A := fun s => Returned a s.

Definition bind {A B} (m : Proc A) (k : A -> Proc B) : Proc B := fun s =>
  match m s with
  | Returned a s' => k a s'
  | Exited s' => Exited s'
  end.

Notation "x <- m ;; k" := (bind m (fun x => k))
  (at level 100, m at next level, right associativity) : go_scope.
Notation "m ;; k" := (bind m (fun _ => k))
  (at level 100, right associativity) : go_scope.

Definition emit (e : Event) : Proc unit := fun s =>
  Returned tt {| paths := paths s; trace := trace s ++ [e] |}.

Definition log_Println (msg : string) : Proc unit := emit (Log msg).

Definition log_Fatal {A} (msg : string) : Proc A := fun s =>
  Exited {| paths := paths s; trace := trace s ++ [Log msg] |}.

(** The collaborators of the installer: the fetcher [getter.Get] of
    go-getter, the directory creation of the operating system and the
    project configuration read by [LoadConfig]. *)
Record FilterEntry := {
  Url : string;
  Filter : string;
}.

Record Profile := {
  Filters : list FilterEntry;
}.

Record Project := {
  Profiles : list (string * Profile);
}.

Class Collaborators := {
  (** [getter.Get dst src]: what the fetch does to the set of existing
      paths, and the error it reports. *)
  getter_Get : string -> string -> gset string -> option error * gset string;
  (** [os.MkdirAll path 0777] *)
  os_MkdirAll : string -> gset string -> option error * gset string;
  (** [LoadConfig ()] *)
  LoadConfig : Project;
}.

Section Installer.
Context `{Collaborators}.
Local Open Scope go_scope.

Definition call_Get (dst src : string) : Proc (option error) := fun s =>
  let r := getter_Get dst src (paths s) in
  Returned r.1 {| paths := r.2; trace := trace s ++ [Fetch dst src] |}.

Definition call_MkdirAll (path : string) : Proc (option error) := fun s =>
  let r := os_MkdirAll path (paths s) in
  Returned r.1 {| paths := r.2; trace := trace s ++ [MkdirAll path] |}.

Definition UrlToPath (url : string) : string :=
  ".regolith/cache/" +:+ url.

Definition FilterNameToUrl (name : string) : string :=
  "github.com/Bedrock-OSS/regolith-filters//" +:+ name.

(** [os.Stat] fails exactly when the path is absent. *)
Definition IsRemoteFilterCached (url : string) (s : Sys) : bool :=
  bool_decide (UrlToPath url ∈ paths s).

Definition dependencies_of_filter (filter : FilterEntry) : list string :=
  (if bool_decide (Url filter ≠ "") then [Url filter] else []) ++
  (if bool_decide (Filter filter ≠ "")
   then [FilterNameToUrl (Filter filter)] else []).

Definition GatherDependencies : list string :=
  let project := LoadConfig in
  flat_map
    (fun profile => flat_map dependencies_of_filter (Filters profile.2))
    (Profiles project).

Definition InstallDependency (url : string) : Proc (option error) :=
  log_Println ("Installing dependency " +:+ url +:+ "...") ;;
  err <- call_Get (UrlToPath url) url ;;
  match err with
  | Some _ => log_Fatal ("Could not install dependency " +:+ url +:+ ": ")
  | None => ret None
  end.

Fixpoint install_each (dependencies : list string) : Proc unit :=
  match dependencies with
  | [] => ret tt
  | dependency :: rest =>
      err <- InstallDependency dependency ;;
      match err with
      | Some _ =>
          log_Fatal ("Could not install dependency " +:+ dependency +:+ ": ")
      | None => install_each rest
      end
  end.

Definition InstallDependencies : Proc unit :=
  log_Println "Installing dependencies..." ;;
  log_Println "Warning: This may take a while..." ;;
  err <- call_MkdirAll ".regolith/cache" ;;
  match err with
  | Some _ => log_Fatal "Could not create .regolith/cache: "
  | None =>
      install_each GatherDependencies ;;
      log_Println "Dependencies installed."
  end.

End Installer.

(** How many fetches a trace holds. *)
Definition is_fetch (e : Event) : bool :=
  match e with Fetch _ _ => true | _ => false end.

Definition fetches (s : Sys) : list Event := List.filter is_fetch (trace s).

(** A fetcher that always succeeds and materialises the destination, on
    a machine where creating a directory succeeds too. *)
Definition fetch_ok : Collaborators := {|
  getter_Get := fun dst _ ps => (None, {[dst]} ∪ ps);
  os_MkdirAll := fun path ps => (None, {[path]} ∪ ps);
  LoadConfig := {| Profiles := [] |};
|}.

Definition fresh : Sys := {| paths := ∅; trace := [] |}.

(** The references of one filter entry: one for a URL, one for a name. *)
Definition references (filter : FilterEntry) : nat :=
  (if bool_decide (Url filter <> "") then 1 else 0) +
  (if bool_decide (Filter filter <> "") then 1 else 0).


(** A project with one profile of two filters, one given by its URL and
    one by its name; a machine on which every call succeeds, and one on
    which no directory can be created. *)
Definition sample_project : Project :=
  {| Profiles :=
       [("dev", {| Filters :=
                     [{| Url := "github.com/u/f"; Filter := "" |};
                      {| Url := ""; Filter := "texture_list" |}] |})] |}.

Definition fetch_sample : Collaborators := {|
  getter_Get := fun dst _ ps => (None, {[dst]} ∪ ps);
  os_MkdirAll := fun path ps => (None, {[path]} ∪ ps);
  LoadConfig := sample_project;
|}.

Definition mkdir_fails : Collaborators := {|
  getter_Get := fun dst _ ps => (None, {[dst]} ∪ ps);
  os_MkdirAll := fun _ ps => (Some (ExternalError "permission denied"), ps);
  LoadConfig := sample_project;
|}.

End Src.

(** * Package [regolith]: the profile runner *)
Module Regolith.

(** ** Data model *)

(** Attributes common to every filter runner (the embedded [Filter]
    struct). *)
Record Filter := {
  Id : string;
  Disabled : bool;
  Arguments : list string;
  Settings : gmap string JSON;
}.

(** The [FilterRunner] interface with its implementations as variants.
    The type assertion to a pointer to [RemoteFilter] made by the source
    becomes a match on the constructor. *)
Inductive FilterRunner :=
  | LocalFilter (f : Filter) (Script : string)
  | RemoteFilter (f : Filter) (Url : string)
  | ProfileFilter (f : Filter) (ProfileName : string).

Definition base (r : FilterRunner) : Filter :=
  match r with
  | LocalFilter f _ | RemoteFilter f _ | ProfileFilter f _ => f
  end.

Definition GetId (r : FilterRunner) : string := Id (base r).

Definition IsDisabled (r : FilterRunner) : bool := Disabled (base r).

Definition is_RemoteFilter (r : FilterRunner) : bool :=
  match r with RemoteFilter _ _ => true | _ => false end.

Definition with_base (g : Filter -> Filter) (r : FilterRunner) : FilterRunner :=
  match r with
  | LocalFilter f s => LocalFilter (g f) s
  | RemoteFilter f u => RemoteFilter (g f) u
  | ProfileFilter f p => ProfileFilter (g f) p
  end.

(** Modelled from the spec: the method [CopyArguments], which is not part
    of the two source files.  It "copies the parent RemoteFilter's
    invocation arguments onto each resulting child runner (children
    inherit the arguments the remote filter was invoked with, not their
    own independent arguments)"; identifier and disabled flag of the
    child are its own. *)
Definition CopyArguments (child parent : FilterRunner) : FilterRunner :=
  with_base
    (fun f => {| Id := Id f; Disabled := Disabled f;
                 Arguments := Arguments (base parent);
                 Settings := Settings (base parent) |})
    child.

Record FilterCollection := {
  Filters : list FilterRunner;
}.

Record ExportTarget := {
  Target : string;
}.

(** [Profile] embeds [FilterCollection]; [profile.Filters] of the source
    is [Filters (Collection profile)]. *)
Record Profile := {
  Collection : FilterCollection;
  Export : ExportTarget;
}.

Record Config := {
  Name : string;
  ResourceFolder : string;
  BehaviorFolder : string;
  DataPath : string;
  Profiles : gmap string Profile;
}.

Record RunContext := {
  ctx_Config : Config;
  ctx_Profile : string;
  ctx_DotRegolithPath : string;
}.

Record RecycledMoveOrCopySettings := {
  canMove : bool;
  saveSourceHashes : bool;
  saveTargetHashes : bool;
  copyTargetAclFromParent : bool;
  reloadSourceHashes : bool;
}.

(** ** The world the runner acts on *)

Inductive Node :=
  | Dir
  | File (content : string).

(** What collaborators can read and change: the file system, the
    fingerprint maps held in memory (one per synchronized root) and the
    fingerprint maps persisted on durable storage. *)
Record Store := {
  fs : gmap string Node;
  hashes : gmap string (gmap string string);
  saved : gmap string (gmap string string);
}.

Inductive OsCall :=
  | Stat (path : string)
  | MkdirAll (path : string)
  | RemoveAll (path : string)
  | Copy (src dst : string)
  | ReadFile (path : string).

Inductive Level := Debug | Info | Warn.

(** Ghost trace: the calls made, in program order.  [EvSync],
    [EvRunFilters] and [EvExport] mark the three phases of a cycle of the
    run loop, [EvRunFiltersDone] the return of the filter list runner;
    [EvRun] is one invocation of a filter's [Run]. *)
Inductive Event :=
  | EvLog (l : Level) (format : string) (args : list string)
  | EvOs (c : OsCall)
  | EvSync (recycled : bool)
  | EvMoveOrCopy (src dst : string)
  | EvRunFilters
  | EvRunFiltersDone (interrupted failed : bool)
  | EvRun (f : FilterRunner)
  | EvExport (recycled : bool)
  | EvIsInterrupted (ignored : list string) (answer : bool)
  | EvSaveState (root : string) (ok : bool)
  | EvClearCachedStates.

(** [signals] is what the interruption channel will hold at the coming
    polls, oldest first: [Some source] when a change under [source] is
    pending at that poll, [None] when nothing is; once the list is used
    up nothing is pending. *)
Record World := {
  store : Store;
  signals : list (option string);
  trace : list Event;
}.

Definition M (A : Type) : Type := World -> A * World.

Definition ret {A} (a : A) : M A := fun w => (a, w).

Definition bind {A B} (m : M A) (k : A -> M B) : M B := fun w =>
  let r := m w in k r.1 r.2.

Notation "x <- m ;; k" := (bind m (fun x => k))
  (at level 100, m at next level, right associativity) : go_scope.
Notation "m ;; k" := (bind m (fun _ => k))
  (at level 100, right associativity) : go_scope.

Definition emit (e : Event) : M unit := fun w =>
  (tt, {| store := store w; signals := signals w; trace := trace w ++ [e] |}).

(** A collaborator acting on the store, with the call recorded. *)
Definition call {A} (e : Event) (f : Store -> A * Store) : M A := fun w =>
  let r := f (store w) in
  (r.1, {| store := r.2; signals := signals w; trace := trace w ++ [e] |}).

Definition Logger_Debugf (format : string) (args : list string) : M unit :=
  emit (EvLog Debug format args).
Definition Logger_Infof (format : string) (args : list string) : M unit :=
  emit (EvLog Info format args).
Definition Logger_Warnf (format : string) (args : list string) : M unit :=
  emit (EvLog Warn format args).

(** What the code receives when it returns from a [goto] loop: the Go
    [error], or the model's fuel ran out first. *)
Inductive Result :=
  | OutOfFuel
  | Return (err : option error).

(** Everything the two source files call and do not define. *)
Class Externals := {
  (** the [FilterInstaller] interface (a filter definition) *)
  FilterInstaller : Type;
  (** [filter.Run context]: an opaque process acting on the workspace *)
  filter_Run : FilterRunner -> RunContext -> Store ->
               (bool * option error) * Store;
  (** [ExportProject profile name dataPath dotRegolithPath] *)
  ExportProject : Profile -> string -> string -> string -> Store ->
                  option error * Store;
  RecycledExportProject : Profile -> string -> string -> string -> Store ->
                          option error * Store;
  FullRecycledMoveOrCopy : string -> string -> RecycledMoveOrCopySettings ->
                           Store -> option error * Store;
  (** faults of the operating system (permissions, full disk, ...) *)
  os_fault : OsCall -> Store -> option error;
  (** faults while persisting or discarding the fingerprint maps *)
  SaveState_fault : string -> Store -> option error;
  ClearCachedStates_fault : Store -> option error;
  (** [json.Unmarshal] into a [map[string]interface{}] *)
  json_Unmarshal : string -> error + gmap string JSON;
  FilterInstallerFromObject : string -> gmap string JSON ->
                              error + FilterInstaller;
  CreateFilterRunner : FilterInstaller -> gmap string JSON ->
                       error + FilterRunner;
  (** [context.GetProfile ()] *)
  GetProfile : RunContext -> error + Profile;
  (** [nth i]: the ordinal used in messages *)
  nth : nat -> string;
}.

(** ** Paths and the file system *)

(** [filepath.Join] of two elements: empty elements are ignored.  (The
    final [Clean] is left out: the code joins clean constants.) *)
Definition filepath_Join (a b : string) : string :=
  if bool_decide (a = "") then b
  else if bool_decide (b = "") then a
  else a +:+ "/" +:+ b.

(** [k] lies strictly below directory [dir]. *)
Definition below (dir k : string) : bool := String.prefix (dir +:+ "/") k.

Definition within (dir k : string) : bool :=
  bool_decide (k = dir) || below dir k.

(** The path [k] of the tree at [src], relocated to the tree at [dst]. *)
Definition relocate (src dst k : string) : option string :=
  if within src k
  then Some (dst +:+ String.substring (String.length src)
                               (String.length k - String.length src) k)
  else None.

Definition copy_tree (src dst : string) (t : gmap string Node)
  : gmap string Node :=
  map_fold
    (fun k n acc =>
       match relocate src dst k with
       | Some k' => <[k' := n]> acc
       | None => acc
       end)
    t t.

Definition remove_tree (p : string) (t : gmap string Node)
  : gmap string Node :=
  filter (fun kv => within p kv.1 = false) t.

Definition set_fs (t : gmap string Node) (s : Store) : Store :=
  {| fs := t; hashes := hashes s; saved := saved s |}.

(** ** Operating system calls

    Each call first consults the fault oracle, then acts on the path map.
    Parent directories are not tracked: [os.MkdirAll] records the
    directory itself. *)
Section Runner.
Context `{Externals}.
Local Open Scope go_scope.

Definition os_Stat (path : string) : M (error + Node) :=
  call (EvOs (Stat path)) (fun s =>
    match os_fault (Stat path) s with
    | Some e => (inl e, s)
    | None =>
        match fs s !! path with
        | Some n => (inr n, s)
        | None => (inl ErrNotExist, s)
        end
    end).

Definition IsDir (stats : Node) : bool :=
  match stats with Dir => true | File _ => false end.

Definition os_MkdirAll (p : string) : M (option error) :=
  call (EvOs (MkdirAll p)) (fun s =>
    match os_fault (MkdirAll p) s with
    | Some e => (Some e, s)
    | None =>
        match fs s !! p with
        | Some (File _) => (Some (ExternalError "not a directory"), s)
        | Some Dir => (None, s)
        | None => (None, set_fs (<[p := Dir]> (fs s)) s)
        end
    end).

Definition os_RemoveAll (p : string) : M (option error) :=
  call (EvOs (RemoveAll p)) (fun s =>
    match os_fault (RemoveAll p) s with
    | Some e => (Some e, s)
    | None => (None, set_fs (remove_tree p (fs s)) s)
    end).

Definition copy_Copy (src dst : string) : M (option error) :=
  call (EvOs (Copy src dst)) (fun s =>
    match os_fault (Copy src dst) s with
    | Some e => (Some e, s)
    | None => (None, set_fs (copy_tree src dst (fs s)) s)
    end).

Definition ioutil_ReadFile (path : string) : M (error + string) :=
  call (EvOs (ReadFile path)) (fun s =>
    match os_fault (ReadFile path) s with
    | Some e => (inl e, s)
    | None =>
        match fs s !! path with
        | Some (File content) => (inr content, s)
        | Some Dir => (inl (ExternalError "is a directory"), s)
        | None => (inl ErrNotExist, s)
        end
    end).

(** ** Fingerprint cache and interruption signal *)

(** Modelled from the spec: [SaveStateInDefaultCache], which is not part
    of the two source files.  "SaveState(root) serializes the current
    fingerprint map for a root to durable storage"; like every call of
    the source that returns an [error], it can fail. *)
Definition SaveStateInDefaultCache (root : string) : M (option error) :=
  fun w =>
    let s := store w in
    match SaveState_fault root s with
    | Some e =>
        (Some e,
         {| store := s; signals := signals w;
            trace := trace w ++ [EvSaveState root false] |})
    | None =>
        (None,
         {| store :=
              {| fs := fs s; hashes := hashes s;
                 saved := <[root := default ∅ (hashes s !! root)]> (saved s) |};
            signals := signals w;
            trace := trace w ++ [EvSaveState root true] |})
    end.

(** Modelled from the spec: [ClearCachedStates], which is not part of the
    two source files.  It "discards all persisted fingerprint state for
    every root unconditionally"; the [error] it returns is what the fault
    oracle reports. *)
Definition ClearCachedStates : M (option error) :=
  call EvClearCachedStates (fun s =>
    (ClearCachedStates_fault s,
     {| fs := fs s; hashes := hashes s; saved := ∅ |})).

(** What a poll that ignores the sources [ignored] answers on the pending
    signals [sg]. *)
Definition pending (ignored : list string) (sg : list (option string))
  : bool :=
  match sg with
  | Some source :: _ => negb (bool_decide (source ∈ ignored))
  | _ => false
  end.

(** Modelled from the spec: [context.IsInterrupted], which is not part of
    the two source files.  The interruption is "a level-triggered external
    signal supplied by a file-watching collaborator", "polled at
    well-defined boundaries only".  A poll takes the oldest pending signal
    off the channel; it does not count when its source is one of the
    arguments, as the source says at the call after the export ("Ignore
    the interruptions from the data path"). *)
Definition IsInterrupted (ignored : list string) : M bool := fun w =>
  let answer := pending ignored (signals w) in
  (answer,
   {| store := store w; signals := tl (signals w);
      trace := trace w ++ [EvIsInterrupted ignored answer] |}).

(** [firstErr]: the first error of its arguments that is not [nil]. *)
Fixpoint firstErr (errors : list (option error)) : option error :=
  match errors with
  | [] => None
  | Some err :: _ => Some err
  | None :: rest => firstErr rest
  end.

(** ** Workspace setup *)

Definition recycledSettings : RecycledMoveOrCopySettings := {|
  canMove := false;
  saveSourceHashes := false;
  saveTargetHashes := false;
  copyTargetAclFromParent := false;
  reloadSourceHashes := true;
|}.

Definition call_FullRecycledMoveOrCopy (src dst : string)
    (settings : RecycledMoveOrCopySettings) : M (option error) :=
  call (EvMoveOrCopy src dst) (FullRecycledMoveOrCopy src dst settings).

(** One of the three blocks of [RecycledSetupTmpFiles]. *)
Definition recycled_setup (folder tmpPath shortName : string)
    (failure : string) (k : M (option error)) : M (option error) :=
  if bool_decide (folder ≠ "") then
    err <- call_FullRecycledMoveOrCopy
             folder (filepath_Join tmpPath shortName) recycledSettings ;;
    match err with
    | Some err => ret (Some (WrapErrorf err (Text failure) []))
    | None => k
    end
  else k.

Definition RecycledSetupTmpFiles (config : Config) (profile : Profile)
    (dotRegolithPath : string) : M (option error) :=
  emit (EvSync true) ;;
  let tmpPath := filepath_Join dotRegolithPath "tmp" in
  err <- os_MkdirAll tmpPath ;;
  match err with
  | Some err => ret (Some (WrapErrorf err osMkdirError [tmpPath]))
  | None =>
      (if bool_decide (ResourceFolder config ≠ "")
       then Logger_Debugf "Copying project files to %s" [tmpPath]
       else ret tt) ;;
      recycled_setup (ResourceFolder config) tmpPath "RP"
        "Failed to setup RP folder in the temporary directory."
        (recycled_setup (BehaviorFolder config) tmpPath "BP"
           "Failed to setup BP folder in the temporary directory."
           (recycled_setup (DataPath config) tmpPath "data"
              "Failed to setup data folder in the temporary directory."
              (Logger_Debugf "Setup done in " [] ;;
               ret None)))
  end.

(** The closure [setup_tmp_directory] of [SetupTmpFiles]; [tmpPath] is the
    variable it captures. *)
Definition setup_tmp_directory (tmpPath : string)
    (path shortName descriptiveName : string) : M (option error) :=
  let p := filepath_Join tmpPath shortName in
  if bool_decide (path ≠ "") then
    r <- os_Stat path ;;
    match r with
    | inl err =>
        if os_IsNotExist err then
          Logger_Warnf "%s %q does not exist" [descriptiveName; path] ;;
          err <- os_MkdirAll p ;;
          match err with
          | Some err => ret (Some (WrapErrorf err osMkdirError [p]))
          | None => ret None
          end
        else ret None
    | inr stats =>
        if IsDir stats then
          err <- copy_Copy path p ;;
          match err with
          | Some err => ret (Some (WrapErrorf err osCopyError [path; p]))
          | None => ret None
          end
        else (* The folder paths leads to a file *)
          ret (Some (WrappedErrorf isDirNotADirError [path]))
    end
  else
    err <- os_MkdirAll p ;;
    match err with
    | Some err => ret (Some (WrapErrorf err osMkdirError [p]))
    | None => ret None
    end.

Definition SetupTmpFiles (config : Config) (profile : Profile)
    (dotRegolithPath : string) : M (option error) :=
  emit (EvSync false) ;;
  let tmpPath := filepath_Join dotRegolithPath "tmp" in
  Logger_Debugf "Cleaning %s" [tmpPath] ;;
  err <- os_RemoveAll tmpPath ;;
  match err with
  | Some err => ret (Some (WrapErrorf err osRemoveError [tmpPath]))
  | None =>
  err <- os_MkdirAll tmpPath ;;
  match err with
  | Some err => ret (Some (WrapErrorf err osMkdirError [tmpPath]))
  | None =>
  Logger_Debugf "Copying project files to %s" [tmpPath] ;;
  err <- setup_tmp_directory tmpPath
           (ResourceFolder config) "RP" "resource folder" ;;
  match err with
  | Some err =>
      ret (Some (WrapErrorf err
        (Text "Failed to setup RP folder in the temporary directory.") []))
  | None =>
  err <- setup_tmp_directory tmpPath
           (BehaviorFolder config) "BP" "behavior folder" ;;
  match err with
  | Some err =>
      ret (Some (WrapErrorf err
        (Text "Failed to setup BP folder in the temporary directory.") []))
  | None =>
  err <- setup_tmp_directory tmpPath (DataPath config) "data" "data folder" ;;
  match err with
  | Some err =>
      ret (Some (WrapErrorf err
        (Text "Failed to setup data folder in the temporary directory.") []))
  | None =>
  Logger_Debugf "Setup done in " [] ;;
  ret None
  end end end end end.

(** ** Running the filters *)

Definition call_Run (filter : FilterRunner) (context : RunContext)
  : M (bool * option error) :=
  call (EvRun filter) (filter_Run filter context).

(** The body of the [for] loop of [WatchProfileImpl], over the filters
    that are still to be visited. *)
Fixpoint run_filters (context : RunContext) (filters : list FilterRunner)
  : M (bool * option error) :=
  match filters with
  | [] => ret (false, None)
  | filter :: rest =>
      (* Disabled filters are skipped *)
      if IsDisabled filter then
        Logger_Infof "Filter %s is disabled, skipping." [GetId filter] ;;
        run_filters context rest
      else
        (* Skip printing if the filter ID is empty *)
        (if bool_decide (GetId filter ≠ "")
         then Logger_Infof "Running filter %s" [GetId filter]
         else ret tt) ;;
        r <- call_Run filter context ;;
        Logger_Debugf "Executed in %s" [] ;;
        match r.2 with
        | Some err =>
            err1 <- ClearCachedStates ;; (* Just to be safe *)
            let err :=
              match err1 with
              | Some err1 => WrapError err1 clearCachedStatesError
              | None => err
              end in
            ret (false, Some (WrapErrorf err filterRunnerRunError
                                [GetId filter]))
        | None =>
            if r.1 then ret (true, None)
            else run_filters context rest
        end
  end.

(** [WatchProfileImpl]; the two ghost events mark its entry and its
    return (with the interruption flag it returns and whether it returns
    an error). *)
Definition WatchProfileImpl (context : RunContext)
  : M (bool * option error) :=
  emit EvRunFilters ;;
  r <- match GetProfile context with
       | inl err =>
           ret (false, Some (WrapErrorf err runContextGetProfileError []))
       | inr profile => run_filters context (Filters (Collection profile))
       end ;;
  emit (EvRunFiltersDone r.1 (bool_decide (r.2 <> None))) ;;
  ret r.

(** ** The run loops *)

(** The closure [saveTmp] of [RecycledRunProfile]. *)
Definition saveTmp (context : RunContext) : M (option error) :=
  err1 <- SaveStateInDefaultCache
            (filepath_Join (ctx_DotRegolithPath context) "tmp/RP") ;;
  err2 <- SaveStateInDefaultCache
            (filepath_Join (ctx_DotRegolithPath context) "tmp/BP") ;;
  err3 <- SaveStateInDefaultCache
            (filepath_Join (ctx_DotRegolithPath context) "tmp/data") ;;
  match firstErr [err1; err2; err3] with
  | Some err =>
      err1 <- ClearCachedStates ;; (* Just to be safe *)
      let err :=
        match err1 with
        | Some err1 => WrapError err1 clearCachedStatesError
        | None => err
        end in
      ret (Some (WrapError err
                   (Text "Failed to save file path states in cache.")))
  | None => ret None
  end.

Definition call_RecycledExportProject (profile : Profile)
    (context : RunContext) : M (option error) :=
  call (EvExport true)
    (RecycledExportProject profile (Name (ctx_Config context))
       (DataPath (ctx_Config context)) (ctx_DotRegolithPath context)).

Definition call_ExportProject (profile : Profile)
    (context : RunContext) : M (option error) :=
  call (EvExport false)
    (ExportProject profile (Name (ctx_Config context))
       (DataPath (ctx_Config context)) (ctx_DotRegolithPath context)).

(** [RecycledRunProfile]; every pass through the label [start] takes one
    unit of fuel, [goto start] is the recursive call. *)
Fixpoint RecycledRunProfile (fuel : nat) (context : RunContext) : M Result :=
  match fuel with
  | 0 => ret OutOfFuel
  | S fuel =>
  (* start: *)
  match GetProfile context with
  | inl err =>
      ret (Return (Some (WrapErrorf err runContextGetProfileError [])))
  | inr profile =>
  err <- RecycledSetupTmpFiles
           (ctx_Config context) profile (ctx_DotRegolithPath context) ;;
  match err with
  | Some err =>
      err1 <- ClearCachedStates ;;
      let err :=
        match err1 with
        | Some err1 => WrapError err1 clearCachedStatesError
        | None => err
        end in
      ret (Return (Some (WrapErrorf err setupTmpFilesError
                           [ctx_DotRegolithPath context])))
  | None =>
  interrupted <- IsInterrupted [] ;;
  if (interrupted : bool) then
    err <- saveTmp context ;;
    match err with
    | Some err => ret (Return (Some (PassError err)))
    | None => RecycledRunProfile fuel context
    end
  else
  (* Run the profile *)
  r <- WatchProfileImpl context ;;
  match r.2 with
  | Some err => ret (Return (Some (PassError err)))
  | None =>
  if r.1 then
    err <- saveTmp context ;;
    match err with
    | Some err => ret (Return (Some (PassError err)))
    | None => RecycledRunProfile fuel context
    end
  else
  (* Export files *)
  Logger_Infof "Moving files to target directory." [] ;;
  err <- call_RecycledExportProject profile context ;;
  match err with
  | Some err =>
      err1 <- ClearCachedStates ;;
      let err :=
        match err1 with
        | Some err1 => WrapError err1 clearCachedStatesError
        | None => err
        end in
      ret (Return (Some (WrapError err exportProjectError)))
  | None =>
  interrupted <- IsInterrupted ["data"] ;;
  if (interrupted : bool) then
    err <- saveTmp context ;;
    match err with
    | Some err => ret (Return (Some (PassError err)))
    | None => RecycledRunProfile fuel context
    end
  else
  Logger_Debugf "Done in " [] ;;
  ret (Return None)
  end end end end end.

(** The part of [RunProfile] from the label [start] on. *)
Fixpoint RunProfile_start (fuel : nat) (context : RunContext) : M Result :=
  match fuel with
  | 0 => ret OutOfFuel
  | S fuel =>
  match GetProfile context with
  | inl err =>
      ret (Return (Some (WrapErrorf err runContextGetProfileError [])))
  | inr profile =>
  err <- SetupTmpFiles
           (ctx_Config context) profile (ctx_DotRegolithPath context) ;;
  match err with
  | Some err =>
      ret (Return (Some (WrapErrorf err setupTmpFilesError
                           [ctx_DotRegolithPath context])))
  | None =>
  interrupted <- IsInterrupted [] ;;
  if (interrupted : bool) then RunProfile_start fuel context
  else
  (* Run the profile *)
  r <- WatchProfileImpl context ;;
  match r.2 with
  | Some err => ret (Return (Some (PassError err)))
  | None =>
  if r.1 then RunProfile_start fuel context
  else
  (* Export files *)
  Logger_Infof "Moving files to target directory." [] ;;
  err <- call_ExportProject profile context ;;
  match err with
  | Some err => ret (Return (Some (WrapError err exportProjectError)))
  | None =>
  interrupted <- IsInterrupted ["data"] ;;
  if (interrupted : bool) then RunProfile_start fuel context
  else
  Logger_Debugf "Done in " [] ;;
  ret (Return None)
  end end end end end.

Definition RunProfile (fuel : nat) (context : RunContext) : M Result :=
  (* Clear states to not conflict with recycled mode, error handling not
     important *)
  ClearCachedStates ;;
  RunProfile_start fuel context.

(** ** Observed interruptions *)

(** The three workspace subtrees whose fingerprints [saveTmp] persists. *)
Definition subtrees (context : RunContext) : list string :=
  [filepath_Join (ctx_DotRegolithPath context) "tmp/RP";
   filepath_Join (ctx_DotRegolithPath context) "tmp/BP";
   filepath_Join (ctx_DotRegolithPath context) "tmp/data"].

(** One cycle of a run loop (with its [sync] and [export]) from the label
    [start] up to the point where it observes an interruption, at one of
    the three tests that are followed by [goto start]: the poll after the
    sync, the flag returned by [WatchProfileImpl], the poll after the
    export.  The result is the world right after the observation, or
    [None] when the cycle fails or ends without observing one. *)
Definition observed (sync export : M (option error))
    (context : RunContext) (w : World) : option World :=
  let s := sync w in
  match s.1 with
  | Some _ => None
  | None =>
      let p := IsInterrupted [] s.2 in
      if p.1 then Some p.2
      else
        let f := WatchProfileImpl context p.2 in
        match f.1.2 with
        | Some _ => None
        | None =>
            if f.1.1 then Some f.2
            else
              let e := export (Logger_Infof
                                 "Moving files to target directory." []
                                 f.2).2 in
              match e.1 with
              | Some _ => None
              | None =>
                  let q := IsInterrupted ["data"] e.2 in
                  if q.1 then Some q.2 else None
              end
        end
  end.

Definition observed_recycled (context : RunContext) (profile : Profile)
  : World -> option World :=
  observed
    (RecycledSetupTmpFiles (ctx_Config context) profile
       (ctx_DotRegolithPath context))
    (call_RecycledExportProject profile context) context.

Definition observed_plain (context : RunContext) (profile : Profile)
  : World -> option World :=
  observed
    (SetupTmpFiles (ctx_Config context) profile
       (ctx_DotRegolithPath context))
    (call_ExportProject profile context) context.

(** ** Sub-filters of a remote filter *)

(** Modelled from the spec: [GetDownloadPath], which is not part of the
    two source files: "DownloadPath(workspaceRoot) string", the place
    below the workspace root where the package with the filter's
    identifier is installed. *)
Definition GetDownloadPath (f : Filter) (dotRegolithPath : string) : string :=
  filepath_Join (filepath_Join dotRegolithPath "cache/filters") (Id f).

(** Modelled from the spec: [extraFilterJsonErrorInfo], which is not part
    of the two source files: "every produced error is annotated with the
    manifest path". *)
Definition extraFilterJsonErrorInfo (path : string) (err : error) : error :=
  WrapErrorf err filterJsonErrorInfo [path].

Definition remoteInRemoteText : string :=
  "Regolith detected a reference to a remote filter inside another remote filter.
This feature is not supported.
Filter name: %sFilter configuration file: %s
JSON path to remote filter reference: filters->%d".

Definition notInstalledText : string :=
  "Couldn't read filter data from path:
%s
Did you install the filter?
You can install all of the filters by running:
regolith install-all".

(** The error returned for a sub-filter that is itself a remote filter. *)
Definition remoteInRemoteError (f : Filter) (path : string) (i : nat)
  : error :=
  WrappedErrorf (Text remoteInRemoteText) [Id f; path; pretty i].

(** [fmt.Sprintf "%v:subfilter%v" f.Id i] *)
Definition subfilterId (f : Filter) (i : nat) : string :=
  Id f +:+ ":subfilter" +:+ pretty i.

(** The [for i, filter := range filters] loop of [subfilterCollection],
    from index [i] on; [result] holds the runners appended so far.  The
    receiver of the method is the remote filter [RemoteFilter f url]. *)
Fixpoint subfilters_from (f : Filter) (url path : string) (i : nat)
    (filters : list JSON) (result : list FilterRunner)
  : error + FilterCollection :=
  match filters with
  | [] => inr {| Filters := result |}
  | filter :: rest =>
      let jsonPath := "filters->" +:+ pretty i in
      match filter with
      | JObject filter =>
          let filterId := subfilterId f i in
          match FilterInstallerFromObject filterId filter with
          | inl err =>
              inl (extraFilterJsonErrorInfo path
                     (WrapErrorf err jsonPathParseError [jsonPath]))
          | inr filterInstaller =>
              (* filter["filter"] = filterId *)
              let filter := <["filter" := JString filterId]> filter in
              match CreateFilterRunner filterInstaller filter with
              | inl err =>
                  let filterName :=
                    nth i +:+ " filter from " +:+ path +:+ "." in
                  inl (WrapErrorf err createFilterRunnerError [filterName])
              | inr filterRunner =>
                  if is_RemoteFilter filterRunner then
                    inl (remoteInRemoteError f path i)
                  else
                    subfilters_from f url path (S i) rest
                      (result ++
                       [CopyArguments filterRunner (RemoteFilter f url)])
              end
          end
      | _ =>
          inl (extraFilterJsonErrorInfo path
                 (WrappedErrorf jsonPathTypeError [jsonPath; "object"]))
      end
  end.

(** The child runner the loop of [subfilterCollection] constructs for the
    entry [e] found at index [i] of the manifest, if the entry is an
    object and both constructors accept it. *)
Definition child (f : Filter) (i : nat) (e : JSON) : option FilterRunner :=
  match e with
  | JObject obj =>
      match FilterInstallerFromObject (subfilterId f i) obj with
      | inr filterInstaller =>
          match CreateFilterRunner filterInstaller
                  (<["filter" := JString (subfilterId f i)]> obj) with
          | inr filterRunner => Some filterRunner
          | inl _ => None
          end
      | inl _ => None
      end
  | _ => None
  end.

Definition manifest_path (f : Filter) (dotRegolithPath : string) : string :=
  filepath_Join (GetDownloadPath f dotRegolithPath) "filter.json".
Definition subfilterCollection (f : Filter) (url : string)
    (dotRegolithPath : string) : M (error + FilterCollection) :=
  let path :=
    filepath_Join (GetDownloadPath f dotRegolithPath) "filter.json" in
  file <- ioutil_ReadFile path ;;
  match file with
  | inl _ => (* Don't pass OS error here. *)
      ret (inl (WrappedErrorf (Text notInstalledText) [path]))
  | inr file =>
      match json_Unmarshal file with
      | inl err => ret (inl (WrapErrorf err jsonUnmarshalError [path]))
      | inr filterCollection =>
          match filterCollection !! "filters" with
          | None =>
              ret (inl (extraFilterJsonErrorInfo path
                          (WrappedErrorf jsonPathMissingError ["filters"])))
          | Some (JArray filters) =>
              ret (subfilters_from f url path 0 filters [])
          | Some _ =>
              ret (inl (extraFilterJsonErrorInfo path
                          (WrappedErrorf jsonPathTypeError
                             ["filters"; "array"])))
          end
      end
  end.

End Runner.

(** ** A concrete set of collaborators

    Used to run the embedding on concrete inputs. *)

Inductive FilterDefinition :=
  | LocalDefinition (id : string)
  | RemoteDefinition (id url : string)
  | ProfileDefinition (id name : string).

(** Modelled from the spec: [FilterInstallerFromObject], which is not part
    of the two source files.  The entry is classified by "which
    discriminant key is present -- explicit URL vs named filter vs nested
    profile". *)
Definition classify (id : string) (obj : gmap string JSON)
  : error + FilterDefinition :=
  match obj !! "url" with
  | Some (JString u) => inr (RemoteDefinition id u)
  | Some _ => inl (WrappedErrorf jsonPathTypeError ["url"; "string"])
  | None =>
      match obj !! "profile" with
      | Some (JString n) => inr (ProfileDefinition id n)
      | Some _ => inl (WrappedErrorf jsonPathTypeError ["profile"; "string"])
      | None => inr (LocalDefinition id)
      end
  end.

Definition strings_of (v : option JSON) : list string :=
  match v with
  | Some (JArray l) =>
      omap (fun x => match x with JString s => Some s | _ => None end) l
  | _ => []
  end.

Definition settings_of (v : option JSON) : gmap string JSON :=
  match v with Some (JObject m) => m | _ => ∅ end.

(** Modelled from the spec: [CreateFilterRunner], which is not part of the
    two source files.  The runner takes its identifier from the key
    "filter" of the object (the key the local-filter constructor
    requires), its disabled flag and argument bag from the object, and its
    variant from the definition. *)
Definition create (d : FilterDefinition) (obj : gmap string JSON)
  : error + FilterRunner :=
  match obj !! "filter" with
  | Some (JString id) =>
      let f := {| Id := id;
                  Disabled := match obj !! "disabled" with
                              | Some (JBool b) => b
                              | _ => false
                              end;
                  Arguments := strings_of (obj !! "arguments");
                  Settings := settings_of (obj !! "settings") |} in
      inr match d with
          | LocalDefinition _ => LocalFilter f ""
          | RemoteDefinition _ u => RemoteFilter f u
          | ProfileDefinition _ n => ProfileFilter f n
          end
  | Some _ => inl (WrappedErrorf jsonPathTypeError ["filter"; "string"])
  | None => inl (WrappedErrorf jsonPathMissingError ["filter"])
  end.

(** Filters behave by name: the one called "crash" fails, the one called
    "watch" reports an interruption, every other one succeeds. *)
Definition scripted_Run (f : FilterRunner) (_ : RunContext) (s : Store)
  : (bool * option error) * Store :=
  if bool_decide (GetId f = "crash")
  then ((false, Some (ExternalError "exit status 1")), s)
  else if bool_decide (GetId f = "watch") then ((true, None), s)
  else ((false, None), s).

(** Collaborators that never fail on their own, except that discarding
    the fingerprint maps reports [clear_fault]; every [filter.json]
    decodes to [manifest]. *)
Definition mock (manifest : gmap string JSON) (clear_fault : option error)
  : Externals := {|
  FilterInstaller := FilterDefinition;
  filter_Run := scripted_Run;
  ExportProject := fun _ _ _ _ s => (None, s);
  RecycledExportProject := fun _ _ _ _ s => (None, s);
  FullRecycledMoveOrCopy := fun _ _ _ s => (None, s);
  os_fault := fun _ _ => None;
  SaveState_fault := fun _ _ => None;
  ClearCachedStates_fault := fun _ => clear_fault;
  json_Unmarshal := fun _ => inr manifest;
  FilterInstallerFromObject := classify;
  CreateFilterRunner := create;
  GetProfile := fun context =>
    match Profiles (ctx_Config context) !! ctx_Profile context with
    | Some p => inr p
    | None => inl (WrappedErrorf (Text "Profile %s not found")
                     [ctx_Profile context])
    end;
  nth := fun i => pretty (S i) +:+ "th";
|}.

Definition named (id : string) (disabled : bool) : FilterRunner :=
  LocalFilter {| Id := id; Disabled := disabled;
                 Arguments := []; Settings := ∅ |} "".

Definition profile_of (filters : list FilterRunner) : Profile :=
  {| Collection := {| Filters := filters |};
     Export := {| Target := "development" |} |}.

Definition context_of (filters : list FilterRunner) : RunContext :=
  {| ctx_Config := {| Name := "project"; ResourceFolder := "";
                      BehaviorFolder := ""; DataPath := "";
                      Profiles := {[ "default" := profile_of filters ]} |};
     ctx_Profile := "default";
     ctx_DotRegolithPath := ".regolith" |}.

Definition empty_store : Store := {| fs := ∅; hashes := ∅; saved := ∅ |}.

Definition world_of (s : Store) (sig : list (option string)) : World :=
  {| store := s; signals := sig; trace := [] |}.

(** A remote filter "P", installed below [.regolith], and two manifests
    for it: one whose second entry refers to another remote filter, one
    with two local entries. *)
Definition parent : Filter :=
  {| Id := "P"; Disabled := false; Arguments := ["--fast"];
     Settings := {[ "scale" := JNumber 2 ]} |}.

Definition manifest_nested : gmap string JSON :=
  {[ "filters" :=
       JArray [JObject {[ "runWith" := JString "python" ]};
               JObject {[ "url" := JString "github.com/user/pack" ]}] ]}.

Definition manifest_local : gmap string JSON :=
  {[ "filters" :=
       JArray [JObject {[ "runWith" := JString "python" ]};
               JObject {[ "runWith" := JString "nodejs" ]}] ]}.

Definition installed : Store :=
  {| fs := {[ ".regolith/cache/filters/P/filter.json" := File "{}" ]};
     hashes := ∅; saved := ∅ |}.

(** The workspace as a sync of a project without source folders leaves
    it. *)
Definition synced : gmap string Node :=
  {[ ".regolith/tmp" := Dir; ".regolith/tmp/RP" := Dir;
     ".regolith/tmp/BP" := Dir; ".regolith/tmp/data" := Dir ]}.

(** ** Reading traces *)

Definition is_sync (e : Event) : bool :=
  match e with EvSync _ => true | _ => false end.
Definition is_run_filters (e : Event) : bool :=
  match e with EvRunFilters => true | _ => false end.
Definition is_export (e : Event) : bool :=
  match e with EvExport _ => true | _ => false end.
Definition is_save (e : Event) : bool :=
  match e with EvSaveState _ _ => true | _ => false end.

Definition count (p : Event -> bool) (l : list Event) : nat :=
  length (List.filter p l).

(** The filters whose [Run] was invoked, in order of invocation. *)
Definition ran (l : list Event) : list FilterRunner :=
  omap (fun e => match e with EvRun f => Some f | _ => None end) l.

(** The filters of a list that are not disabled, in the order of the
    list. *)
Definition enabled (filters : list FilterRunner) : list FilterRunner :=
  List.filter (fun f => negb (IsDisabled f)) filters.

(** The roots whose fingerprints were persisted, in order. *)
Definition saves (l : list Event) : list string :=
  omap (fun e => match e with EvSaveState r _ => Some r | _ => None end) l.

(** An interruption is observed: a poll of the signal answers yes, or
    the filter list runner returns with its interruption flag set. *)
Definition is_interrupt (e : Event) : bool :=
  match e with
  | EvIsInterrupted _ true => true
  | EvRunFiltersDone true _ => true
  | _ => false
  end.

(** What follows each event of a trace that satisfies [p]: one suffix of
    the trace per such event. *)
Fixpoint after (p : Event -> bool) (l : list Event) : list (list Event) :=
  match l with
  | [] => []
  | e :: rest => (if p e then [rest] else []) ++ after p rest
  end.

(** Events of the workspace setup: log lines and file operations. *)
Definition is_setup (e : Event) : bool :=
  match e with
  | EvLog _ _ _ | EvOs _ | EvMoveOrCopy _ _ => true
  | _ => false
  end.

(** Events of the filter loop: log lines, filter runs and the discarding
    of the fingerprint maps after a failed run. *)
Definition is_filter_loop (e : Event) : bool :=
  match e with
  | EvLog _ _ _ | EvRun _ | EvClearCachedStates => true
  | _ => false
  end.

Definition warnings (l : list Event) : list (string * list string) :=
  omap (fun e => match e with
                 | EvLog Warn format args => Some (format, args)
                 | _ => None
                 end) l.

(** [m] leaves the pending signals alone and only adds events of class
    [C] to the trace. *)
Definition frames (C : Event -> bool) {A} (m : M A) : Prop :=
  forall w,
    signals (m w).2 = signals w /\
    exists d, trace (m w).2 = trace w ++ d /\ forallb C d = true.

(** The events of one call of [saveTmp], given which of the three saves
    succeed. *)
Definition save_events (context : RunContext) (ok : bool * bool * bool)
  : list Event :=
  [EvSaveState (filepath_Join (ctx_DotRegolithPath context) "tmp/RP") ok.1.1;
   EvSaveState (filepath_Join (ctx_DotRegolithPath context) "tmp/BP") ok.1.2;
   EvSaveState (filepath_Join (ctx_DotRegolithPath context) "tmp/data") ok.2].

Definition all_ok (ok : bool * bool * bool) : bool :=
  ok.1.1 && ok.1.2 && ok.2.

Definition handled_recycled (context : RunContext) (r : Result * World)
    (suffix : list Event) : Prop :=
  exists ok rest,
    suffix = save_events context ok ++ rest /\
    if all_ok ok
    then (exists rest', rest = EvSync true :: rest') \/
         (rest = [] /\ r.1 = OutOfFuel)
    else rest = [EvClearCachedStates] /\
         saved (store r.2) = ∅ /\
         exists err, r.1 = Return (Some (PassError err)).

Definition recycled_trace_ok (context : RunContext) (w : World)
    (r : Result * World) : Prop :=
  exists d,
    trace r.2 = trace w ++ d /\
    ((d = [] /\ r.1 = OutOfFuel) \/ exists d', d = EvSync true :: d') /\
    Forall (handled_recycled context r) (after is_interrupt d).

Definition handled_plain (r : Result * World) (suffix : list Event) : Prop :=
  (exists rest, suffix = EvSync false :: rest) \/
  (suffix = [] /\ r.1 = OutOfFuel).

Definition plain_trace_ok (w : World) (r : Result * World) : Prop :=
  exists d,
    trace r.2 = trace w ++ d /\
    ((d = [] /\ r.1 = OutOfFuel) \/ exists d', d = EvSync false :: d') /\
    saves d = [] /\
    Forall (handled_plain r) (after is_interrupt d).

(** The counters of a trace: workspace syncs, runs of the filter list
    that were started, runs that completed, exports. *)
Definition is_completed (e : Event) : bool :=
  match e with EvRunFiltersDone false false => true | _ => false end.

Definition tally (l : list Event) : nat * nat * nat * nat :=
  (count is_sync l, count is_run_filters l, count is_completed l,
   count is_export l).

Definition tally_add (a b : nat * nat * nat * nat) : nat * nat * nat * nat :=
  (a.1.1.1 + b.1.1.1, a.1.1.2 + b.1.1.2, a.1.2 + b.1.2, a.2 + b.2).

(** Under the store invariant [I], the action [m] returns a result that
    satisfies [good] and re-establishes [I]. *)
Definition succeeds (I : Store -> Prop) {A} (m : M A) (good : A -> Prop)
  : Prop :=
  forall w, I (store w) -> good (m w).1 /\ I (store (m w).2).





End Regolith.

(** * The dependency installer *)
Section InstallerFacts.
Import Src.
Context `{Collaborators}.

(** What one call of [InstallDependency] adds to the fetches: always one
    fetch of the locator into its cache path. *)
Lemma InstallDependency_fetches (url : string) (s : Sys) :
  fetches (final (InstallDependency url s)) =
  fetches s ++ [Fetch (UrlToPath url) url].
Proof.
  destruct s as [ps t].
  unfold InstallDependency, bind, log_Println, emit, call_Get; simpl.
  destruct (getter_Get (UrlToPath url) url ps) as [[e|] ps']; simpl;
    unfold fetches; simpl; rewrite !List.filter_app; simpl;
    by rewrite !app_nil_r.
Qed.

(** C1 (as amended): [InstallDependency] never consults the existence
    check.  Every call performs the fetch of the locator into its cache
    path, whether or not that path already exists; two calls in
    succession therefore perform the fetch twice, unless the first fetch
    fails, in which case the process exits after that single fetch. *)
Theorem InstallDependency_always_fetches (url : string) (s : Sys) :
  fetches (final (InstallDependency url s)) =
    fetches s ++ [Fetch (UrlToPath url) url] /\
  fetches (final (bind (InstallDependency url)
                       (fun _ => InstallDependency url) s)) =
    fetches s ++
    match (getter_Get (UrlToPath url) url (paths s)).1 with
    | None => [Fetch (UrlToPath url) url; Fetch (UrlToPath url) url]
    | Some _ => [Fetch (UrlToPath url) url]
    end.
Proof.
  split; [apply InstallDependency_fetches |].
  unfold bind at 1.
  destruct (InstallDependency url s) as [r s1|s1] eqn:Hfirst.
  - pose proof (InstallDependency_fetches url s) as H1.
    rewrite Hfirst in H1; simpl in H1.
    rewrite InstallDependency_fetches, H1, <- app_assoc; simpl.
    destruct s as [ps t].
    unfold InstallDependency, bind, log_Println, emit, call_Get in Hfirst;
      simpl in *.
    by destruct (getter_Get (UrlToPath url) url ps) as [[e|] ps'].
  - pose proof (InstallDependency_fetches url s) as H1.
    rewrite Hfirst in H1; simpl in *. rewrite H1.
    destruct s as [ps t].
    unfold InstallDependency, bind, log_Println, emit, call_Get in Hfirst;
      simpl in *.
    by destruct (getter_Get (UrlToPath url) url ps) as [[e|] ps'].
Qed.


Lemma elem_of_dependencies_of_filter (d : string) (filter : FilterEntry) :
  d ∈ dependencies_of_filter filter <->
  (Url filter <> "" /\ d = Url filter) \/
  (Filter filter <> "" /\ d = FilterNameToUrl (Filter filter)).
Proof.
  unfold dependencies_of_filter.
  rewrite elem_of_app.
  repeat case_bool_decide;
    rewrite ?list_elem_of_singleton, ?elem_of_nil; intuition.
Qed.

(** A locator is gathered exactly when a filter of a profile of the
    project refers to it: by its URL, or by its name, which is turned into
    the locator of the standard library of filters. *)
Theorem GatherDependencies_spec (d : string) :
  d ∈ GatherDependencies <->
  exists profile filter,
    profile ∈ Profiles LoadConfig /\ filter ∈ Filters profile.2 /\
    ((Url filter <> "" /\ d = Url filter) \/
     (Filter filter <> "" /\ d = FilterNameToUrl (Filter filter))).
Proof.
  unfold GatherDependencies.
  rewrite list_elem_of_In, in_flat_map. split.
  - intros (profile & Hp & Hd). apply in_flat_map in Hd as (filter & Hf & Hd).
    exists profile, filter. apply list_elem_of_In in Hp, Hf, Hd.
    by apply elem_of_dependencies_of_filter in Hd.
  - intros (profile & filter & Hp & Hf & Hd).
    exists profile. rewrite <- list_elem_of_In. split; [done|].
    apply in_flat_map. exists filter. rewrite <- !list_elem_of_In.
    split; [done|]. by apply elem_of_dependencies_of_filter.
Qed.

Lemma length_flat_map {A B} (f : A -> list B) (l : list A) :
  length (flat_map f l) = sum_list (map (fun x => length (f x)) l).
Proof. induction l as [|x l IH]; cbn; [done|]. by rewrite length_app, IH. Qed.

(** [GatherDependencies] returns one locator for every reference of every
    filter of every profile (duplicates are kept), and never the empty
    locator. *)
Theorem GatherDependencies_length :
  length GatherDependencies =
  sum_list (map (fun profile =>
                   sum_list (map references (Filters profile.2)))
              (Profiles LoadConfig)) /\
  "" ∉ GatherDependencies.
Proof.
  split.
  - unfold GatherDependencies. rewrite length_flat_map. f_equal.
    apply map_ext. intros profile. rewrite length_flat_map. f_equal.
    apply map_ext. intros filter.
    unfold dependencies_of_filter, references.
    rewrite length_app. by repeat case_bool_decide.
  - unfold GatherDependencies. rewrite list_elem_of_In, in_flat_map.
    intros (profile & _ & Hd). apply in_flat_map in Hd as (filter & _ & Hd).
    apply list_elem_of_In, elem_of_dependencies_of_filter in Hd
      as [[Hne Heq]|[_ Heq]].
    + by rewrite <- Heq in Hne.
    + done.
Qed.


(** [InstallDependency] returns [nil] when the fetch succeeds and exits
    the process when it fails; it never returns an error, so the test of
    its result in the loop of [InstallDependencies] never fires. *)
Theorem InstallDependency_nil_or_exit (url : string) (s : Sys) :
  match (getter_Get (UrlToPath url) url (paths s)).1 with
  | None => exists s', InstallDependency url s = Returned None s'
  | Some _ => exists s', InstallDependency url s = Exited s'
  end /\
  (forall err s', InstallDependency url s <> Returned (Some err) s').
Proof.
  destruct s as [ps t].
  unfold InstallDependency, bind, log_Println, log_Fatal, emit, call_Get, ret;
    cbn.
  destruct (getter_Get (UrlToPath url) url ps) as [[e|] ps']; cbn;
    split; eauto; done.
Qed.


(** When [.regolith/cache] cannot be created, [InstallDependencies]
    exits the process without fetching anything. *)
Theorem InstallDependencies_mkdir_failure (s : Sys) (e : error) :
  (os_MkdirAll ".regolith/cache" (paths s)).1 = Some e ->
  (exists s', InstallDependencies s = Exited s') /\
  fetches (final (InstallDependencies s)) = fetches s.
Proof.
  intros Hmk. destruct s as [ps t].
  unfold InstallDependencies, bind, log_Println, log_Fatal, emit,
    call_MkdirAll; cbn in *.
  rewrite Hmk. cbn. split; [eauto|].
  unfold fetches. cbn. rewrite !List.filter_app. cbn.
  by rewrite !app_nil_r.
Qed.


End InstallerFacts.

(** C1 (as stated) fails: with a fetcher that succeeds, the cache path of
    the locator exists after the first call, and the second call fetches
    again; two fetches are performed, not one. *)
Lemma InstallDependency_fetches_cached_again :
  let s1 := Src.final (@Src.InstallDependency Src.fetch_ok
                         "github.com/Bedrock-OSS/regolith-filters//texture_list"
                         Src.fresh) in
  Src.IsRemoteFilterCached
    "github.com/Bedrock-OSS/regolith-filters//texture_list" s1 = true /\
  length (Src.fetches s1) = 1 /\
  length (Src.fetches
            (Src.final (@Src.InstallDependency Src.fetch_ok
               "github.com/Bedrock-OSS/regolith-filters//texture_list" s1)))
  = 2.
Proof. vm_compute. done. Qed.

(** * The profile runner *)
Section RunnerFacts.
Import Regolith.
Context `{Externals}.

Lemma ran_app (l1 l2 : list Event) : ran (l1 ++ l2) = ran l1 ++ ran l2.
Proof. apply omap_app. Qed.


Ltac run_step :=
  unfold bind, ret, emit, call, call_Run, ClearCachedStates,
    Logger_Infof, Logger_Debugf, Logger_Warnf; cbn.

Lemma run_filters_exclusive (context : RunContext)
    (filters : list FilterRunner) (w : World) :
  (run_filters context filters w).1.1 = false \/
  (run_filters context filters w).1.2 = None.
Proof.
  revert w. induction filters as [|filter rest IH]; intros w; cbn.
  - by left.
  - destruct (IsDisabled filter).
    + run_step. apply IH.
    + run_step.
      destruct (filter_Run filter context _) as [[interrupted [err|]] s'];
        cbn.
      * by left.
      * destruct interrupted; [by right | apply IH].
Qed.

Lemma run_filters_ran (context : RunContext)
    (filters : list FilterRunner) (w : World) :
  exists k,
    ran (trace (run_filters context filters w).2) =
      ran (trace w) ++ take k (enabled filters) /\
    ((run_filters context filters w).1 = (false, None) ->
     k = length (enabled filters)).
Proof.
  revert w. induction filters as [|filter rest IH]; intros w; cbn.
  - exists 0. by rewrite app_nil_r.
  - unfold enabled; cbn. destruct (IsDisabled filter) eqn:Hd; cbn.
    + run_step. destruct (IH
        {| store := store w; signals := signals w;
           trace := trace w ++
             [EvLog Info "Filter %s is disabled, skipping." [GetId filter]] |})
        as (k & Hk & Hall).
      exists k. split; [|done].
      rewrite Hk. cbn. by rewrite ran_app, app_nil_r.
    + run_step.
      destruct (filter_Run filter context _) as [[interrupted [err|]] s'];
        cbn.
      * exists 1. split; [|done]. cbn.
        rewrite !ran_app. cbn. rewrite !app_nil_r.
        case_bool_decide; cbn; rewrite ?ran_app; cbn;
          by rewrite ?app_nil_r.
      * destruct interrupted.
        -- exists 1. split; [|done]. cbn.
           rewrite !ran_app. cbn. rewrite !app_nil_r.
           case_bool_decide; cbn; rewrite ?ran_app; cbn;
             by rewrite ?app_nil_r.
        -- match goal with |- context [run_filters context rest ?w'] =>
             destruct (IH w') as (k & Hk & Hall) end.
           exists (S k). split; [|by intros ->%Hall].
           rewrite Hk. cbn. rewrite !ran_app. cbn.
           case_bool_decide; cbn; rewrite ?ran_app; cbn;
             rewrite ?app_nil_r, <- ?app_assoc; done.
Qed.

Lemma run_filters_app (context : RunContext)
    (pre rest : list FilterRunner) (w : World) :
  (run_filters context pre w).1 = (false, None) ->
  run_filters context (pre ++ rest) w =
  run_filters context rest (run_filters context pre w).2.
Proof.
  revert w. induction pre as [|filter pre IH]; intros w; cbn; [done|].
  destruct (IsDisabled filter).
  - run_step. apply IH.
  - run_step.
    destruct (filter_Run filter context _) as [[interrupted [err|]] s'];
      cbn; [done|].
    destruct interrupted; [done | apply IH].
Qed.


Lemma enabled_not_disabled (filters : list FilterRunner) :
  Forall (fun f => IsDisabled f = false) (enabled filters).
Proof.
  apply Forall_forall. intros f [_ Hf]%list_elem_of_In%filter_In.
  by destruct (IsDisabled f).
Qed.

Lemma WatchProfileImpl_flags (context : RunContext) (w : World) :
  (WatchProfileImpl context w).1.1 = true ->
  (WatchProfileImpl context w).1.2 = None.
Proof.
  unfold WatchProfileImpl. run_step.
  destruct (GetProfile context) as [err|profile]; cbn; [done|].
  destruct (run_filters_exclusive context (Filters (Collection profile))
    {| store := store w; signals := signals w;
       trace := trace w ++ [EvRunFilters] |}) as [Hr|Hr];
    rewrite Hr; done.
Qed.

(** C9: [WatchProfileImpl] never reports an interruption together with
    an error: when the interruption flag it returns is set the error is
    [nil], and when the error is not [nil] the flag is not set. *)
Theorem WatchProfileImpl_exclusive (context : RunContext) (w : World) :
  let r := (WatchProfileImpl context w).1 in
  (r.1 = true -> r.2 = None) /\ (r.2 <> None -> r.1 = false).
Proof.
  cbn zeta. pose proof (WatchProfileImpl_flags context w) as Hflags.
  split; [done|].
  intros Herr. destruct (WatchProfileImpl context w).1.1; [|done].
  by specialize (Hflags eq_refl).
Qed.

Lemma run_filters_runs (context : RunContext)
    (filters : list FilterRunner) (w : World) :
  let r := run_filters context filters w in
  (exists k,
     ran (trace r.2) = ran (trace w) ++ take k (enabled filters) /\
     ((r.1 = (false, None) /\ k = length (enabled filters)) \/
      (r.1 <> (false, None) /\
       exists f s,
         last (take k (enabled filters)) = Some f /\
         (filter_Run f context s).1 <> (false, None)))) /\
  ((forall f s, f ∈ enabled filters ->
                (filter_Run f context s).1 = (false, None)) ->
   r.1 = (false, None)).
Proof.
  cbn zeta. revert w.
  induction filters as [|filter rest IH]; intros w; cbn.
  - split; [|done]. exists 0. rewrite app_nil_r. eauto.
  - unfold enabled; cbn. destruct (IsDisabled filter) eqn:Hd; cbn.
    + run_step.
      match goal with |- context [run_filters context rest ?w'] =>
        destruct (IH w') as [(k & Hk & Hcase) Hall] end.
      split; [|done]. exists k. split; [|done].
      rewrite Hk. cbn. by rewrite ran_app, app_nil_r.
    + fold (enabled rest). run_step.
      assert (forall (b : bool) (w0 : World),
        ran (trace ((if b then emit (EvLog Info "Running filter %s"
                                       [GetId filter])
                     else fun w1 => (tt, w1)) w0).2) = ran (trace w0) /\
        store ((if b then emit (EvLog Info "Running filter %s"
                                  [GetId filter])
                else fun w1 => (tt, w1)) w0).2 = store w0) as Hlog.
      { intros [] w0; cbn; [|done]. by rewrite ran_app, app_nil_r. }
      destruct (Hlog (bool_decide (GetId filter <> "")) w) as [Hran Hstore].
      rewrite Hstore.
      destruct (filter_Run filter context (store w))
        as [[interrupted [err|]] s'] eqn:Hrun; cbn.
      * split.
        -- exists 1. cbn. split.
           ++ rewrite !ran_app, Hran. cbn. by rewrite !app_nil_r.
           ++ right. split; [done|]. exists filter, (store w).
              by rewrite Hrun.
        -- intros Hall. specialize (Hall filter (store w)).
           rewrite Hrun in Hall. cbn in Hall.
           by specialize (Hall ltac:(by left)).
      * destruct interrupted.
        -- split.
           ++ exists 1. cbn. split.
              ** rewrite !ran_app, Hran. cbn. by rewrite !app_nil_r.
              ** right. split; [done|]. exists filter, (store w).
                 by rewrite Hrun.
           ++ intros Hall. specialize (Hall filter (store w)).
              rewrite Hrun in Hall. cbn in Hall.
              by specialize (Hall ltac:(by left)).
        -- match goal with |- context [run_filters context rest ?w'] =>
             destruct (IH w') as [(k & Hk & Hcase) Hall] end.
           split.
           ++ exists (S k). split.
              ** rewrite Hk. cbn. rewrite !ran_app, Hran. cbn.
                 by rewrite ?app_nil_r, <- ?app_assoc.
              ** destruct Hcase as [[Hr ->]|(Hr & f & s & Hlast & Hstop)].
                 --- by left.
                 --- right. split; [done|]. exists f, s. split; [|done].
                     cbn. destruct (take k (enabled rest)); [done|].
                     done.
           ++ intros Hgood. apply Hall.
              intros f s Hf. apply Hgood. by right.
Qed.

(** C6: [WatchProfileImpl] invokes [Run] on the enabled filters of the
    profile in declared order and on nothing else.  The filters run are
    the first [k] enabled filters of the list and none of them is
    disabled; either the list is run to completion, [k] is the number of
    enabled filters and the result is neither an interruption nor an
    error, or the result is one of the two and the last filter run is one
    whose [Run] did not return [(false, nil)].  In particular, when no
    enabled filter interrupts or fails, every enabled filter is run, in
    order, and the run completes. *)
Theorem WatchProfileImpl_runs_enabled_in_order
    (context : RunContext) (profile : Profile) (w : World) :
  GetProfile context = inr profile ->
  let filters := Filters (Collection profile) in
  let r := WatchProfileImpl context w in
  (exists k,
     ran (trace r.2) = ran (trace w) ++ take k (enabled filters) /\
     Forall (fun f => IsDisabled f = false) (take k (enabled filters)) /\
     ((r.1 = (false, None) /\ k = length (enabled filters)) \/
      (r.1 <> (false, None) /\
       exists f s,
         last (take k (enabled filters)) = Some f /\
         (filter_Run f context s).1 <> (false, None)))) /\
  ((forall f s, f ∈ enabled filters ->
                (filter_Run f context s).1 = (false, None)) ->
   r.1 = (false, None) /\
   ran (trace r.2) = ran (trace w) ++ enabled filters).
Proof.
  intros Hp filters r. subst r filters.
  unfold WatchProfileImpl, bind, emit, ret.
  cbn [fst snd store signals trace]. rewrite Hp.
  destruct (run_filters_runs context (Filters (Collection profile))
    {| store := store w; signals := signals w;
       trace := trace w ++ [EvRunFilters] |}) as [(k & Hk & Hcase) Hall].
  destruct (run_filters context (Filters (Collection profile)) _)
    as [res w'].
  cbn [fst snd store signals trace] in *.
  assert (ran (trace w' ++
               [EvRunFiltersDone res.1 (bool_decide (res.2 <> None))]) =
          ran (trace w) ++ take k (enabled (Filters (Collection profile))))
    as Hran.
  { rewrite ran_app, Hk, ran_app. cbn. by rewrite !app_nil_r. }
  split.
  - exists k. split; [done|]. split; [|done].
    apply Forall_take, enabled_not_disabled.
  - intros Hgood. specialize (Hall Hgood). split; [done|].
    rewrite Hran. destruct Hcase as [[_ ->]|[Hne _]]; [|done].
    by rewrite firstn_all.
Qed.

(** C5: let [f] be an enabled filter of the profile such that the
    filters before it ran without error or interruption, and let its [Run]
    return the error [e].  Then [WatchProfileImpl] returns an error
    wrapped with the identifier of [f] and no interruption; [f] is the
    last filter run (none of the later ones runs, and [f] is not run
    again); discarding the fingerprint maps is the last thing done before
    returning and the persisted maps are empty afterwards.  The wrapped
    error is [e]; only when [ClearCachedStates] itself reports an error
    does that error take the place of [e] inside the same wrapper. *)
Theorem WatchProfileImpl_filter_error
    (context : RunContext) (profile : Profile)
    (pre post : list FilterRunner) (f : FilterRunner) (e : error)
    (w : World) :
  let w1 := (emit EvRunFilters w).2 in
  let w2 := (run_filters context pre w1).2 in
  let r := WatchProfileImpl context w in
  GetProfile context = inr profile ->
  Filters (Collection profile) = pre ++ f :: post ->
  (run_filters context pre w1).1 = (false, None) ->
  IsDisabled f = false ->
  (filter_Run f context (store w2)).1.2 = Some e ->
  r.1 = (false,
         Some (WrapErrorf
                 match ClearCachedStates_fault
                         (filter_Run f context (store w2)).2 with
                 | Some e1 => WrapError e1 clearCachedStatesError
                 | None => e
                 end
                 filterRunnerRunError [GetId f])) /\
  ran (trace r.2) = ran (trace w) ++ enabled pre ++ [f] /\
  saved (store r.2) = ∅ /\
  exists t, trace r.2 = t ++ [EvRun f; EvLog Debug "Executed in %s" [];
                              EvClearCachedStates;
                              EvRunFiltersDone false true].
Proof.
  intros w1 w2 r Hp Hfs Hpre Hd He. subst r.
  destruct (run_filters_ran context pre w1) as (k & Hk & Hall).
  specialize (Hall Hpre). subst k. rewrite firstn_all in Hk.
  unfold WatchProfileImpl. run_step. rewrite Hp, Hfs.
  fold w1. rewrite (run_filters_app _ _ _ _ Hpre). fold w2.
  cbn. rewrite Hd. run_step.
  destruct (filter_Run f context (store w2)) as [[interrupted err] s'] eqn:Hrun.
  cbn in He. subst err. fold w2 in Hk.
  assert (ran (trace w1) = ran (trace w)) as Hw1.
  { subst w1. cbn. rewrite ran_app. cbn. by rewrite app_nil_r. }
  case_bool_decide; cbn; rewrite Hrun; cbn.
  all: split; [done|]; split; [|split; [done|]].
  all: rewrite ?ran_app, ?Hk, ?Hw1; cbn; rewrite ?app_nil_r, <- ?app_assoc;
    try done.
  - exists (trace w2 ++ [EvLog Info "Running filter %s" [GetId f]]).
    by rewrite <- app_assoc.
  - by eexists.
Qed.


Lemma CopyArguments_base (r parent : FilterRunner) :
  GetId (CopyArguments r parent) = GetId r /\
  IsDisabled (CopyArguments r parent) = IsDisabled r /\
  Arguments (base (CopyArguments r parent)) = Arguments (base parent) /\
  Settings (base (CopyArguments r parent)) = Settings (base parent) /\
  is_RemoteFilter (CopyArguments r parent) = is_RemoteFilter r.
Proof. by destruct r. Qed.

Lemma subfilters_from_remote (f : Filter) (url path : string)
    (filters : list JSON) (n i : nat) (result : list FilterRunner)
    (r : FilterRunner) :
  (forall j, j < n -> is_Some (filters !! j ≫= child f (i + j))) ->
  filters !! n ≫= child f (i + n) = Some r ->
  is_RemoteFilter r = true ->
  exists k r',
    k <= n /\
    filters !! k ≫= child f (i + k) = Some r' /\
    is_RemoteFilter r' = true /\
    subfilters_from f url path i filters result =
      inl (remoteInRemoteError f path (i + k)).
Proof.
  revert n i result.
  induction filters as [|e rest IH]; intros n i result Hbefore Hn Hr;
    [done|].
  destruct n as [|n].
  - exists 0, r. rewrite Nat.add_0_r in *. cbn in Hn.
    split; [done|]. split; [by rewrite ?Nat.add_0_r|]. split; [done|].
    cbn. unfold child in Hn. destruct e; try done.
    destruct (FilterInstallerFromObject _ _); [done|].
    destruct (CreateFilterRunner _ _); [done|].
    injection Hn as ->. by rewrite Hr.
  - destruct (Hbefore 0 ltac:(lia)) as [r0 Hr0].
    rewrite Nat.add_0_r in Hr0. cbn in Hr0.
    destruct (is_RemoteFilter r0) eqn:Hremote.
    + exists 0, r0. rewrite Nat.add_0_r. split; [lia|].
      split; [done|]. split; [done|].
      cbn. unfold child in Hr0. destruct e; try done.
      destruct (FilterInstallerFromObject _ _); [done|].
      destruct (CreateFilterRunner _ _); [done|].
      injection Hr0 as ->. by rewrite Hremote.
    + destruct (IH n (S i)
        (result ++ [CopyArguments r0 (RemoteFilter f url)]))
        as (k & r' & Hk & Hchild & Hr' & Hres).
      * intros j Hj. specialize (Hbefore (S j) ltac:(lia)).
        by replace (S i + j) with (i + S j) by lia.
      * by replace (S i + n) with (i + S n) by lia.
      * done.
      * exists (S k), r'. split; [lia|].
        replace (i + S k) with (S i + k) by lia.
        split; [done|]. split; [done|].
        cbn. unfold child in Hr0. destruct e; try done.
        destruct (FilterInstallerFromObject _ _); [done|].
        destruct (CreateFilterRunner _ _); [done|].
        injection Hr0 as ->. by rewrite Hremote.
Qed.

Lemma subfilters_from_children (f : Filter) (url path : string)
    (filters : list JSON) (i : nat) (result : list FilterRunner) :
  (forall inst obj r id,
     CreateFilterRunner inst obj = inr r ->
     obj !! "filter" = Some (JString id) -> GetId r = id) ->
  (forall j e, filters !! j = Some e ->
     exists r, child f (i + j) e = Some r /\ is_RemoteFilter r = false) ->
  exists children,
    subfilters_from f url path i filters result =
      inr {| Filters := result ++ children |} /\
    length children = length filters /\
    forall j r, children !! j = Some r ->
      GetId r = Id f +:+ ":subfilter" +:+ pretty (i + j) /\
      Arguments (base r) = Arguments f /\
      Settings (base r) = Settings f /\
      is_RemoteFilter r = false.
Proof.
  intros Hid. revert i result.
  induction filters as [|e rest IH]; intros i result Hall.
  - exists []. cbn. by rewrite app_nil_r.
  - destruct (Hall 0 e eq_refl) as (r0 & Hr0 & Hlocal).
    rewrite Nat.add_0_r in Hr0.
    destruct (IH (S i) (result ++ [CopyArguments r0 (RemoteFilter f url)]))
      as (children & Hres & Hlen & Hchildren).
    { intros j e' He'. destruct (Hall (S j) e' He') as (r & Hr & Hl).
      exists r. by replace (S i + j) with (i + S j) by lia. }
    exists (CopyArguments r0 (RemoteFilter f url) :: children).
    split; [|split].
    + cbn. unfold child in Hr0. destruct e; try done.
      destruct (FilterInstallerFromObject _ _); [done|].
      destruct (CreateFilterRunner _ _) eqn:Hcreate; [done|].
      injection Hr0 as ->. rewrite Hlocal, Hres.
      by rewrite <- app_assoc.
    + cbn. by rewrite Hlen.
    + intros [|j] r Hj; cbn in Hj.
      * injection Hj as <-. rewrite Nat.add_0_r.
        destruct (CopyArguments_base r0 (RemoteFilter f url))
          as (-> & _ & -> & -> & ->).
        split; [|done].
        unfold child in Hr0. destruct e; try done.
        destruct (FilterInstallerFromObject _ _); [done|].
        destruct (CreateFilterRunner _ _) eqn:Hcreate; [done|].
        injection Hr0 as ->.
        apply (Hid _ _ _ _ Hcreate), lookup_insert_eq.
      * replace (i + S j) with (S i + j) by lia. by apply Hchildren.
Qed.


Lemma frames_ret (C : Event -> bool) {A} (a : A) : frames C (ret a).
Proof. intros w. split; [done|]. exists []. by rewrite app_nil_r. Qed.

Lemma frames_bind (C : Event -> bool) {A B} (m : M A) (k : A -> M B) :
  frames C m -> (forall a, frames C (k a)) -> frames C (bind m k).
Proof.
  intros Hm Hk w. unfold bind; cbn.
  destruct (Hm w) as (Hs1 & d1 & Ht1 & Hc1).
  destruct (Hk (m w).1 (m w).2) as (Hs2 & d2 & Ht2 & Hc2).
  split; [congruence|].
  exists (d1 ++ d2). rewrite Ht2, Ht1, <- app_assoc. split; [done|].
  by rewrite forallb_app, Hc1, Hc2.
Qed.

Lemma frames_emit (C : Event -> bool) (e : Event) :
  C e = true -> frames C (emit e).
Proof.
  intros He w. split; [done|]. exists [e]. cbn. by rewrite He.
Qed.

Lemma frames_call (C : Event -> bool) {A} (e : Event)
    (f : Store -> A * Store) :
  C e = true -> frames C (call e f).
Proof.
  intros He w. split; [done|]. exists [e]. cbn. by rewrite He.
Qed.

Ltac frames_step :=
  first
    [ apply frames_ret
    | apply frames_emit; reflexivity
    | apply frames_call; reflexivity
    | apply frames_bind; [|intros ?]
    | match goal with
      | |- frames _ (match ?x with _ => _ end) => destruct x
      | |- frames _ (if ?b then _ else _) => destruct b
      end ].

Ltac frames_auto := repeat frames_step.

Lemma frames_setup_tmp_directory (tmpPath path shortName descr : string) :
  frames is_setup (setup_tmp_directory tmpPath path shortName descr).
Proof.
  unfold setup_tmp_directory, os_Stat, os_MkdirAll, copy_Copy, Logger_Warnf.
  frames_auto.
Qed.

Lemma SetupTmpFiles_shape (config : Config) (profile : Profile)
    (dot : string) (w : World) :
  exists err st d,
    SetupTmpFiles config profile dot w =
      (err, {| store := st; signals := signals w;
               trace := trace w ++ EvSync false :: d |}) /\
    forallb is_setup d = true.
Proof.
  assert (forall m : M (option error), frames is_setup m ->
    exists err st d,
      bind (emit (EvSync false)) (fun _ => m) w =
        (err, {| store := st; signals := signals w;
                 trace := trace w ++ EvSync false :: d |}) /\
      forallb is_setup d = true) as Hgen.
  { intros m Hm. unfold bind, emit; cbn.
    match goal with |- context [m ?w'] =>
      destruct (Hm w') as (Hs & d & Ht & Hc); destruct (m w') as [err [st sg tr]]
    end.
    cbn in *. subst. exists err, st, d. by rewrite <- app_assoc. }
  apply Hgen.
  unfold os_RemoveAll, os_MkdirAll, Logger_Debugf.
  pose proof frames_setup_tmp_directory.
  frames_auto; done.
Qed.

Lemma RecycledSetupTmpFiles_shape (config : Config) (profile : Profile)
    (dot : string) (w : World) :
  exists err st d,
    RecycledSetupTmpFiles config profile dot w =
      (err, {| store := st; signals := signals w;
               trace := trace w ++ EvSync true :: d |}) /\
    forallb is_setup d = true.
Proof.
  assert (forall m : M (option error), frames is_setup m ->
    exists err st d,
      bind (emit (EvSync true)) (fun _ => m) w =
        (err, {| store := st; signals := signals w;
                 trace := trace w ++ EvSync true :: d |}) /\
      forallb is_setup d = true) as Hgen.
  { intros m Hm. unfold bind, emit; cbn.
    match goal with |- context [m ?w'] =>
      destruct (Hm w') as (Hs & d & Ht & Hc); destruct (m w') as [err [st sg tr]]
    end.
    cbn in *. subst. exists err, st, d. by rewrite <- app_assoc. }
  apply Hgen.
  unfold recycled_setup, call_FullRecycledMoveOrCopy, os_MkdirAll,
    Logger_Debugf.
  frames_auto.
Qed.

Lemma frames_run_filters (context : RunContext)
    (filters : list FilterRunner) :
  frames is_filter_loop (run_filters context filters).
Proof.
  induction filters as [|filter rest IH]; cbn.
  - apply frames_ret.
  - unfold call_Run, ClearCachedStates, Logger_Infof, Logger_Debugf.
    frames_auto; done.
Qed.

Lemma WatchProfileImpl_shape (context : RunContext) (w : World) :
  exists interrupted err st d,
    WatchProfileImpl context w =
      ((interrupted, err),
       {| store := st; signals := signals w;
          trace := trace w ++ EvRunFilters :: d ++
                   [EvRunFiltersDone interrupted (bool_decide (err <> None))] |})
    /\ forallb is_filter_loop d = true
    /\ (interrupted = true -> err = None).
Proof.
  pose proof (WatchProfileImpl_flags context w) as Hex.
  unfold WatchProfileImpl in *. unfold bind, emit, ret in *; cbn in *.
  destruct (GetProfile context) as [e|profile]; cbn in *.
  - eexists false, _, _, []. cbn. split; [|done].
    by rewrite <- app_assoc.
  - match goal with |- context [run_filters context ?l ?w'] =>
      destruct (frames_run_filters context l w') as (Hs & d & Ht & Hc);
      destruct (run_filters context l w') as [[i err] [st sg tr]]
    end.
    cbn in *. subst. exists i, err, st, d.
    split; [|done]. by rewrite <- !app_assoc.
Qed.

Lemma saveTmp_shape (context : RunContext) (w : World) :
  exists err st ok,
    saveTmp context w =
      (err,
       {| store := st; signals := signals w;
          trace := trace w ++ save_events context ok ++
                   (if all_ok ok then [] else [EvClearCachedStates]) |}) /\
    if all_ok ok then err = None
    else saved st = ∅ /\ exists e, err = Some e.
Proof.
  unfold saveTmp, bind, ret, SaveStateInDefaultCache, ClearCachedStates,
    call; cbn.
  repeat match goal with
  | |- context [SaveState_fault ?r ?s] =>
      destruct (SaveState_fault r s) as [?|]; cbn
  end.
  all: let try_ok b1 b2 b3 :=
         (eexists _, _, (b1, b2, b3); rewrite <- ?app_assoc; cbn;
          (split; [reflexivity|]); cbn; by eauto) in
       first [ try_ok true true true | try_ok true true false
             | try_ok true false true | try_ok true false false
             | try_ok false true true | try_ok false true false
             | try_ok false false true | try_ok false false false ].
Qed.

Lemma saveTmp_persisted (context : RunContext) (w : World) :
  (saveTmp context w).1 = None ->
  Forall (fun root =>
            saved (store (saveTmp context w).2) !! root =
            Some (default ∅ (hashes (store w) !! root)))
    (subtrees context).
Proof.
  unfold saveTmp, bind, ret, SaveStateInDefaultCache, ClearCachedStates,
    call; cbn.
  repeat match goal with
  | |- context [SaveState_fault ?r ?s] =>
      destruct (SaveState_fault r s) as [?|]; cbn
  end; try done.
  intros _. unfold subtrees.
  repeat constructor; rewrite !lookup_insert; repeat case_decide;
    congruence.
Qed.

Lemma after_app (p : Event -> bool) (l1 l2 : list Event) :
  after p (l1 ++ l2) = map (fun s => s ++ l2) (after p l1) ++ after p l2.
Proof.
  induction l1 as [|e l1 IH]; cbn; [done|].
  rewrite IH, map_app, <- app_assoc. by destruct (p e).
Qed.

Lemma after_none (C p : Event -> bool) (l : list Event) :
  (forall e, C e = true -> p e = false) ->
  forallb C l = true -> after p l = [].
Proof.
  intros HC. induction l as [|e l IH]; cbn; [done|].
  intros [He Hl]%andb_prop. by rewrite (HC e He), IH.
Qed.

Lemma setup_not_interrupt (e : Event) :
  is_setup e = true -> is_interrupt e = false.
Proof. by destruct e. Qed.

Lemma filter_loop_not_interrupt (e : Event) :
  is_filter_loop e = true -> is_interrupt e = false.
Proof. by destruct e. Qed.

Local Opaque saveTmp WatchProfileImpl SetupTmpFiles RecycledSetupTmpFiles.

Lemma after_setup (ds rest : list Event) :
  forallb is_setup ds = true ->
  after is_interrupt (ds ++ rest) = after is_interrupt rest.
Proof.
  intros Hds. by rewrite after_app, (after_none _ _ _ setup_not_interrupt Hds).
Qed.

Lemma after_filter_loop (ds rest : list Event) :
  forallb is_filter_loop ds = true ->
  after is_interrupt (ds ++ rest) = after is_interrupt rest.
Proof.
  intros Hds.
  by rewrite after_app, (after_none _ _ _ filter_loop_not_interrupt Hds).
Qed.

Ltac assoc_norm :=
  repeat first [rewrite <- app_assoc | rewrite <- app_comm_cons];
  cbn [app].

Ltac use_sync Hr :=
  match type of Hr with
  | context [RecycledSetupTmpFiles ?c ?p ?d ?w] =>
      let err := fresh "err" in let st := fresh "st" in
      let ds := fresh "ds" in let Heq := fresh in let Hds := fresh "Hds" in
      destruct (RecycledSetupTmpFiles_shape c p d w)
        as (err & st & ds & Heq & Hds);
      rewrite Heq in Hr; clear Heq; cbn [fst snd] in Hr
  | context [SetupTmpFiles ?c ?p ?d ?w] =>
      let err := fresh "err" in let st := fresh "st" in
      let ds := fresh "ds" in let Heq := fresh in let Hds := fresh "Hds" in
      destruct (SetupTmpFiles_shape c p d w)
        as (err & st & ds & Heq & Hds);
      rewrite Heq in Hr; clear Heq; cbn [fst snd] in Hr
  end.

Ltac use_watch Hr :=
  match type of Hr with
  | context [WatchProfileImpl ?c ?w] =>
      let i := fresh "interrupted" in let err := fresh "err" in
      let st := fresh "st" in let dr := fresh "dr" in
      let Heq := fresh in let Hdr := fresh "Hdr" in
      let Hex := fresh "Hex" in
      destruct (WatchProfileImpl_shape c w)
        as (i & err & st & dr & Heq & Hdr & Hex);
      rewrite Heq in Hr; clear Heq; cbn [fst snd] in Hr
  end.

Ltac use_save Hr :=
  match type of Hr with
  | context [saveTmp ?c ?w] =>
      let err := fresh "err" in let st := fresh "st" in
      let ok := fresh "ok" in let Heq := fresh in let Hok := fresh "Hok" in
      destruct (saveTmp_shape c w) as (err & st & ok & Heq & Hok);
      rewrite Heq in Hr; clear Heq; cbn [fst snd] in Hr
  end.

Ltac use_poll Hr :=
  match type of Hr with
  | context [IsInterrupted ?a ?w] =>
      unfold IsInterrupted in Hr; cbn [fst snd signals store trace] in Hr
  end.

Lemma recycled_after_interruption (context : RunContext) (fuel : nat)
    (w : World) (pre : list Event) (obs : Event) (st0 : Store)
    (sg : list (option string)) (ok : bool * bool * bool)
    (err : option error)
    (tr : list Event) (r : Result * World) :
  (forall w', recycled_trace_ok context w'
                (RecycledRunProfile fuel context w')) ->
  is_interrupt obs = true ->
  after is_interrupt pre = [] ->
  (if all_ok ok then err = None
   else saved st0 = ∅ /\ exists e, err = Some e) ->
  tr = trace w ++ EvSync true :: pre ++ obs :: save_events context ok ++
       (if all_ok ok then [] else [EvClearCachedStates]) ->
  r = match err with
      | Some err => ret (Return (Some (PassError err)))
      | None => RecycledRunProfile fuel context
      end {| store := st0; signals := sg; trace := tr |} ->
  recycled_trace_ok context w r.
Proof.
  intros IH Hobs Hpre Hok -> ->.
  destruct (all_ok ok) eqn:Hall.
  - subst err.
    match goal with |- recycled_trace_ok _ _ (_ _ ?w3) =>
      destruct (IH w3) as (d' & Ht & Hhead & Hrest);
      set (r := RecycledRunProfile fuel context w3) in *
    end.
    exists (EvSync true :: pre ++ obs :: save_events context ok ++ d').
    split; [|split].
    + rewrite Ht. cbn [trace]. rewrite ?app_nil_r, <- ?app_assoc. cbn.
      by rewrite <- ?app_assoc.
    + eauto.
    + cbn. rewrite after_app, Hpre. cbn. rewrite Hobs. cbn.
      constructor; [|done].
      exists ok, d'. rewrite Hall. split; [done|].
      destruct Hhead as [[-> ?]|?]; eauto.
  - destruct Hok as (Hsaved & e & ->). cbn.
    exists (EvSync true :: pre ++ obs :: save_events context ok ++
            [EvClearCachedStates]).
    split; [|split].
    + done.
    + eauto.
    + cbn. rewrite after_app, Hpre. cbn. rewrite Hobs. cbn.
      constructor; [|done].
      exists ok, [EvClearCachedStates]. rewrite Hall. eauto.
Qed.

Lemma RecycledRunProfile_trace (context : RunContext) (profile : Profile)
    (fuel : nat) (w : World) :
  GetProfile context = inr profile ->
  recycled_trace_ok context w (RecycledRunProfile fuel context w).
Proof.
  intros Hp. revert w. induction fuel as [|fuel IH]; intros w.
  { exists []. cbn. rewrite app_nil_r. eauto. }
  remember (RecycledRunProfile (S fuel) context w) as r eqn:Hr.
  cbn [RecycledRunProfile] in Hr. rewrite Hp in Hr. unfold bind in Hr.
  use_sync Hr.
  destruct err as [err|].
  { unfold ClearCachedStates, call, ret in Hr. cbn in Hr. subst r.
    cbn. eexists. split; [by rewrite <- app_assoc|]. split; [eauto|].
    cbn. rewrite after_setup by done. cbn. constructor. }
  use_poll Hr.
  destruct (pending [] (signals w)) eqn:Hsig.
  { use_save Hr.
    eapply (recycled_after_interruption context fuel w ds
              (EvIsInterrupted [] true)); [done|done| |done| |exact Hr].
    - by apply (after_none _ _ _ setup_not_interrupt).
    - cbn. by assoc_norm. }
  use_watch Hr.
  assert (after is_interrupt
            (ds ++ EvIsInterrupted [] false :: EvRunFilters :: dr) = [])
    as Hquiet.
  { rewrite after_setup by done. cbn.
    by apply (after_none _ _ _ filter_loop_not_interrupt). }
  destruct err as [err|].
  { destruct interrupted; [by specialize (Hex eq_refl)|].
    subst r. cbn.
    eexists. split; [by assoc_norm|]. split; [eauto|].
    cbn. rewrite after_setup by done. cbn.
    rewrite after_filter_loop by done. cbn. constructor. }
  rewrite bool_decide_false in Hr by (by intros ?).
  destruct interrupted.
  { use_save Hr.
    eapply (recycled_after_interruption context fuel w
              (ds ++ EvIsInterrupted [] false :: EvRunFilters :: dr)
              (EvRunFiltersDone true false)); [done|done|done|done| |exact Hr].
    cbn. by assoc_norm. }
  unfold call_RecycledExportProject, call, Logger_Infof, emit in Hr.
  cbn [fst snd store signals trace] in Hr.
  destruct (RecycledExportProject _ _ _ _ _) as [[eerr|] st1].
  { unfold ClearCachedStates, call, ret in Hr. cbn in Hr. subst r. cbn.
    eexists. split; [by assoc_norm|]. split; [eauto|].
    cbn. rewrite after_setup by done. cbn.
    rewrite after_filter_loop by done. cbn. constructor. }
  cbn [fst snd store signals trace] in Hr.
  destruct (pending ["data"] (tail (signals w))) eqn:Hsig2.
  { use_save Hr.
    eapply (recycled_after_interruption context fuel w
              (ds ++ EvIsInterrupted [] false :: EvRunFilters :: dr ++
               [EvRunFiltersDone false false;
                EvLog Info "Moving files to target directory." [];
                EvExport true])
              (EvIsInterrupted ["data"] true));
      [done|done| |done| |exact Hr].
    - rewrite after_setup by done. cbn.
      by rewrite after_filter_loop by done.
    - cbn. by assoc_norm. }
  unfold Logger_Debugf, emit, ret in Hr. cbn in Hr. subst r. cbn.
  eexists. split; [by assoc_norm|]. split; [eauto|].
  cbn. rewrite after_setup by done. cbn.
  rewrite after_filter_loop by done. cbn. constructor.
Qed.

Lemma saves_app (l1 l2 : list Event) : saves (l1 ++ l2) = saves l1 ++ saves l2.
Proof. apply omap_app. Qed.

Lemma saves_none (C : Event -> bool) (l : list Event) :
  (forall e, C e = true -> is_save e = false) ->
  forallb C l = true -> saves l = [].
Proof.
  intros HC. unfold saves. induction l as [|e l IH]; cbn; [done|].
  intros [He Hl]%andb_prop. specialize (HC e He).
  rewrite (IH Hl). by destruct e.
Qed.

Lemma saves_cons (e : Event) (l : list Event) :
  saves (e :: l) =
  match e with EvSaveState root _ => [root] | _ => [] end ++ saves l.
Proof. by destruct e. Qed.

Lemma saves_setup (ds rest : list Event) :
  forallb is_setup ds = true -> saves (ds ++ rest) = saves rest.
Proof.
  intros Hds. rewrite saves_app.
  rewrite (saves_none is_setup ds); [done | by intros [] | done].
Qed.

Lemma saves_filter_loop (ds rest : list Event) :
  forallb is_filter_loop ds = true -> saves (ds ++ rest) = saves rest.
Proof.
  intros Hds. rewrite saves_app.
  rewrite (saves_none is_filter_loop ds); [done | by intros [] | done].
Qed.

Local Arguments saves : simpl never.

Lemma RunProfile_start_trace (context : RunContext) (profile : Profile)
    (fuel : nat) (w : World) :
  GetProfile context = inr profile ->
  plain_trace_ok w (RunProfile_start fuel context w).
Proof.
  intros Hp. revert w. induction fuel as [|fuel IH]; intros w.
  { exists []. cbn. rewrite app_nil_r. split; [done|]. split; [eauto|].
    split; [done | constructor]. }
  assert (forall (pre : list Event) (obs : Event) w',
    is_interrupt obs = true -> after is_interrupt pre = [] ->
    saves pre = [] -> saves [obs] = [] ->
    trace w' = trace w ++ EvSync false :: pre ++ [obs] ->
    plain_trace_ok w (RunProfile_start fuel context w')) as Hloop.
  { intros pre obs w' Hobs Hpre Hspre Hsobs Hw'.
    destruct (IH w') as (d' & Ht & Hhead & Hsaves & Hrest).
    exists (EvSync false :: pre ++ [obs] ++ d'). split; [|split; [|split]].
    - rewrite Ht, Hw'. by assoc_norm.
    - eauto.
    - rewrite saves_cons, !saves_app, Hspre, Hsobs, Hsaves. done.
    - cbn. rewrite after_app, Hpre. cbn. rewrite Hobs. cbn.
      constructor; [|done].
      destruct Hhead as [[-> ?]|[? ->]]; [by right | left; eauto]. }
  remember (RunProfile_start (S fuel) context w) as r eqn:Hr.
  cbn [RunProfile_start] in Hr. rewrite Hp in Hr. unfold bind in Hr.
  use_sync Hr.
  destruct err as [err|].
  { unfold ret in Hr. subst r. cbn.
    eexists. split; [done|]. split; [eauto|]. cbn.
    rewrite saves_cons, (saves_none is_setup), (after_none is_setup);
      try done; by intros []. }
  use_poll Hr.
  destruct (pending [] (signals w)) eqn:Hsig.
  { subst r. apply (Hloop ds (EvIsInterrupted [] true)); try done.
    - by apply (after_none _ _ _ setup_not_interrupt).
    - apply (saves_none is_setup); [by intros [] | done].
    - cbn. by assoc_norm. }
  use_watch Hr.
  destruct err as [err|].
  { destruct interrupted; [by specialize (Hex eq_refl)|].
    subst r. cbn.
    eexists. split; [by assoc_norm|]. split; [eauto|]. cbn.
    rewrite saves_cons, saves_setup, after_setup by done. cbn.
    rewrite !saves_cons, saves_filter_loop, after_filter_loop by done. cbn.
    split; [done | constructor]. }
  rewrite bool_decide_false in Hr by (by intros ?).
  destruct interrupted.
  { subst r.
    apply (Hloop (ds ++ EvIsInterrupted [] false :: EvRunFilters :: dr)
                 (EvRunFiltersDone true false)); try done.
    - rewrite after_setup by done. cbn.
      by apply (after_none _ _ _ filter_loop_not_interrupt).
    - rewrite saves_setup by done. rewrite !saves_cons. cbn.
      apply (saves_none is_filter_loop); [by intros [] | done].
    - cbn. by assoc_norm. }
  unfold call_ExportProject, call, Logger_Infof, emit in Hr.
  cbn [fst snd store signals trace] in Hr.
  destruct (ExportProject _ _ _ _ _) as [[eerr|] st1].
  { unfold ret in Hr. subst r. cbn.
    eexists. split; [by assoc_norm|]. split; [eauto|]. cbn.
    rewrite saves_cons, saves_setup, after_setup by done. cbn.
    rewrite !saves_cons, saves_filter_loop, after_filter_loop by done. cbn.
    split; [done | constructor]. }
  cbn [fst snd store signals trace] in Hr.
  destruct (pending ["data"] (tail (signals w))) eqn:Hsig2.
  { subst r.
    apply (Hloop (ds ++ EvIsInterrupted [] false :: EvRunFilters :: dr ++
                  [EvRunFiltersDone false false;
                   EvLog Info "Moving files to target directory." [];
                   EvExport false])
                 (EvIsInterrupted ["data"] true)); try done.
    - rewrite after_setup by done. cbn.
      by rewrite after_filter_loop by done.
    - rewrite saves_setup by done. rewrite !saves_cons. cbn.
      by rewrite saves_filter_loop by done.
    - cbn. by assoc_norm. }
  unfold Logger_Debugf, emit, ret in Hr. cbn in Hr. subst r. cbn.
  eexists. split; [by assoc_norm|]. split; [eauto|]. cbn.
  rewrite saves_cons, saves_setup, after_setup by done. cbn.
  rewrite !saves_cons, saves_filter_loop, after_filter_loop by done. cbn.
  split; [done | constructor].
Qed.

Lemma count_app (p : Event -> bool) (l1 l2 : list Event) :
  count p (l1 ++ l2) = count p l1 + count p l2.
Proof. unfold count. by rewrite List.filter_app, length_app. Qed.

Lemma count_none (C p : Event -> bool) (l : list Event) :
  (forall e, C e = true -> p e = false) ->
  forallb C l = true -> count p l = 0.
Proof.
  intros HC. unfold count. induction l as [|e l IH]; cbn; [done|].
  intros [He Hl]%andb_prop. by rewrite (HC e He), IH.
Qed.

Lemma tally_app (l1 l2 : list Event) :
  tally (l1 ++ l2) = tally_add (tally l1) (tally l2).
Proof. unfold tally, tally_add. cbn. by rewrite !count_app. Qed.

Lemma tally_cons (e : Event) (l : list Event) :
  tally (e :: l) = tally_add (tally [e]) (tally l).
Proof. apply (tally_app [e]). Qed.

Lemma tally_setup (l : list Event) :
  forallb is_setup l = true -> tally l = (0, 0, 0, 0).
Proof.
  intros Hl. unfold tally.
  by rewrite !(count_none is_setup) by (done || by intros []).
Qed.

Lemma tally_filter_loop (l : list Event) :
  forallb is_filter_loop l = true -> tally l = (0, 0, 0, 0).
Proof.
  intros Hl. unfold tally.
  by rewrite !(count_none is_filter_loop) by (done || by intros []).
Qed.

Section Scenario.
Variables (context : RunContext) (profile : Profile) (I : Store -> Prop).
Hypothesis Hprofile : GetProfile context = inr profile.
Hypothesis Hrun :
  succeeds I (WatchProfileImpl context) (fun r => r = (false, None)).

Lemma RunProfile_start_restart (fuel : nat) (w : World) :
  succeeds I (SetupTmpFiles (ctx_Config context) profile
                (ctx_DotRegolithPath context)) (fun err => err = None) ->
  I (store w) ->
  pending [] (signals w) = true ->
  exists w' d,
    RunProfile_start (S fuel) context w = RunProfile_start fuel context w' /\
    I (store w') /\
    signals w' = tail (signals w) /\
    trace w' = trace w ++ d /\ tally d = (1, 0, 0, 0).
Proof.
  intros Hsync HI Hsig.
  remember (RunProfile_start (S fuel) context w) as r eqn:Hr.
  cbn [RunProfile_start] in Hr. rewrite Hprofile in Hr. unfold bind in Hr.
  destruct (SetupTmpFiles_shape (ctx_Config context) profile
              (ctx_DotRegolithPath context) w) as (err & st & ds & Heq & Hds).
  pose proof (Hsync w HI) as Hsw. rewrite Heq in Hsw, Hr.
  cbn [fst snd store] in Hsw, Hr. destruct Hsw as [-> HI1].
  use_poll Hr. rewrite Hsig in Hr.
  eexists _, _. split; [exact Hr|]. cbn. split; [done|]. split; [done|].
  split; [by assoc_norm|].
  rewrite tally_cons, tally_app, (tally_setup ds) by done. reflexivity.
Qed.

Lemma RunProfile_start_completes (fuel : nat) (w : World) :
  succeeds I (SetupTmpFiles (ctx_Config context) profile
                (ctx_DotRegolithPath context)) (fun err => err = None) ->
  succeeds I (call_ExportProject profile context) (fun err => err = None) ->
  I (store w) ->
  pending [] (signals w) = false ->
  pending ["data"] (tail (signals w)) = false ->
  exists w' d,
    RunProfile_start (S fuel) context w = (Return None, w') /\
    trace w' = trace w ++ d /\ tally d = (1, 1, 1, 1).
Proof.
  intros Hsync Hexport HI Hsig Hsig2.
  remember (RunProfile_start (S fuel) context w) as r eqn:Hr.
  cbn [RunProfile_start] in Hr. rewrite Hprofile in Hr. unfold bind in Hr.
  destruct (SetupTmpFiles_shape (ctx_Config context) profile
              (ctx_DotRegolithPath context) w) as (err & st & ds & Heq & Hds).
  pose proof (Hsync w HI) as Hsw. rewrite Heq in Hsw, Hr.
  cbn [fst snd store] in Hsw, Hr. destruct Hsw as [-> HI1].
  use_poll Hr. rewrite Hsig in Hr.
  match type of Hr with context [WatchProfileImpl context ?w1] =>
    pose proof (Hrun w1 HI1) as Hw1;
    destruct (WatchProfileImpl_shape context w1)
      as (i & err & st1 & dr & Heq1 & Hdr & _);
    rewrite Heq1 in Hw1, Hr
  end.
  cbn [fst snd store] in Hw1, Hr. destruct Hw1 as [Hw1 HI2].
  injection Hw1 as -> ->.
  rewrite bool_decide_false in Hr by (by intros ?).
  unfold Logger_Infof, emit in Hr. cbn [fst snd] in Hr.
  match type of Hr with context [call_ExportProject profile context ?w2] =>
    pose proof (Hexport w2 HI2) as [He HI3]; revert He HI3 Hr;
    unfold call_ExportProject, call; cbn [fst snd store signals trace];
    intros He HI3 Hr
  end.
  rewrite He in Hr. cbn [fst snd store signals trace] in Hr.
  rewrite Hsig2 in Hr.
  unfold Logger_Debugf, emit, ret in Hr. cbn in Hr.
  eexists _, _. split; [exact Hr|]. cbn. split; [by assoc_norm|].
  rewrite tally_cons, tally_app, (tally_setup ds) by done.
  rewrite (tally_cons (EvIsInterrupted [] false)),
    (tally_cons EvRunFilters), tally_app, (tally_filter_loop dr) by done.
  reflexivity.
Qed.

Lemma RecycledRunProfile_restart (fuel : nat) (w : World) :
  succeeds I (RecycledSetupTmpFiles (ctx_Config context) profile
                (ctx_DotRegolithPath context)) (fun err => err = None) ->
  succeeds I (saveTmp context) (fun err => err = None) ->
  I (store w) ->
  pending [] (signals w) = true ->
  exists w' d,
    RecycledRunProfile (S fuel) context w =
      RecycledRunProfile fuel context w' /\
    I (store w') /\
    signals w' = tail (signals w) /\
    trace w' = trace w ++ d /\ tally d = (1, 0, 0, 0).
Proof.
  intros Hsync Hsave HI Hsig.
  remember (RecycledRunProfile (S fuel) context w) as r eqn:Hr.
  cbn [RecycledRunProfile] in Hr. rewrite Hprofile in Hr. unfold bind in Hr.
  destruct (RecycledSetupTmpFiles_shape (ctx_Config context) profile
              (ctx_DotRegolithPath context) w) as (err & st & ds & Heq & Hds).
  pose proof (Hsync w HI) as Hsw. rewrite Heq in Hsw, Hr.
  cbn [fst snd store] in Hsw, Hr. destruct Hsw as [-> HI1].
  use_poll Hr. rewrite Hsig in Hr.
  match type of Hr with context [saveTmp context ?w1] =>
    pose proof (Hsave w1 HI1) as Hs1;
    destruct (saveTmp_shape context w1) as (err & st1 & ok & Heq1 & Hok);
    rewrite Heq1 in Hs1, Hr
  end.
  cbn [fst snd store] in Hs1, Hr. destruct Hs1 as [-> HI2].
  destruct (all_ok ok); [|by destruct Hok as (_ & ? & ?)].
  eexists _, _. split; [exact Hr|]. cbn. split; [done|]. split; [done|].
  split; [by assoc_norm|].
  rewrite tally_cons, tally_app, (tally_setup ds) by done. reflexivity.
Qed.

Lemma RecycledRunProfile_completes (fuel : nat) (w : World) :
  succeeds I (RecycledSetupTmpFiles (ctx_Config context) profile
                (ctx_DotRegolithPath context)) (fun err => err = None) ->
  succeeds I (call_RecycledExportProject profile context)
    (fun err => err = None) ->
  I (store w) ->
  pending [] (signals w) = false ->
  pending ["data"] (tail (signals w)) = false ->
  exists w' d,
    RecycledRunProfile (S fuel) context w = (Return None, w') /\
    trace w' = trace w ++ d /\ tally d = (1, 1, 1, 1).
Proof.
  intros Hsync Hexport HI Hsig Hsig2.
  remember (RecycledRunProfile (S fuel) context w) as r eqn:Hr.
  cbn [RecycledRunProfile] in Hr. rewrite Hprofile in Hr. unfold bind in Hr.
  destruct (RecycledSetupTmpFiles_shape (ctx_Config context) profile
              (ctx_DotRegolithPath context) w) as (err & st & ds & Heq & Hds).
  pose proof (Hsync w HI) as Hsw. rewrite Heq in Hsw, Hr.
  cbn [fst snd store] in Hsw, Hr. destruct Hsw as [-> HI1].
  use_poll Hr. rewrite Hsig in Hr.
  match type of Hr with context [WatchProfileImpl context ?w1] =>
    pose proof (Hrun w1 HI1) as Hw1;
    destruct (WatchProfileImpl_shape context w1)
      as (i & err & st1 & dr & Heq1 & Hdr & _);
    rewrite Heq1 in Hw1, Hr
  end.
  cbn [fst snd store] in Hw1, Hr. destruct Hw1 as [Hw1 HI2].
  injection Hw1 as -> ->.
  rewrite bool_decide_false in Hr by (by intros ?).
  unfold Logger_Infof, emit in Hr. cbn [fst snd] in Hr.
  match type of Hr with
  | context [call_RecycledExportProject profile context ?w2] =>
    pose proof (Hexport w2 HI2) as [He HI3]; revert He HI3 Hr;
    unfold call_RecycledExportProject, call;
    cbn [fst snd store signals trace];
    intros He HI3 Hr
  end.
  rewrite He in Hr. cbn [fst snd store signals trace] in Hr.
  rewrite Hsig2 in Hr.
  unfold Logger_Debugf, emit, ret in Hr. cbn in Hr.
  eexists _, _. split; [exact Hr|]. cbn. split; [by assoc_norm|].
  rewrite tally_cons, tally_app, (tally_setup ds) by done.
  rewrite (tally_cons (EvIsInterrupted [] false)),
    (tally_cons EvRunFilters), tally_app, (tally_filter_loop dr) by done.
  reflexivity.
Qed.

End Scenario.

(** C3: with the signals [interrupt; interrupt; none] pending on the
    interruption channel (the two interruptions from any sources), and every phase succeeding under a store
    invariant [I] (the filter list runs to completion), both run loops
    return [nil] after exactly three workspace syncs, one start and one
    completion of the filter list, and one export; three units of fuel
    are enough. *)
Theorem interruption_loop_shape (context : RunContext) (profile : Profile)
    (I : Store -> Prop) (fuel : nat) (w : World) (source1 source2 : string) :
  GetProfile context = inr profile ->
  succeeds I ClearCachedStates (fun _ => True) ->
  succeeds I (SetupTmpFiles (ctx_Config context) profile
                (ctx_DotRegolithPath context)) (fun err => err = None) ->
  succeeds I (RecycledSetupTmpFiles (ctx_Config context) profile
                (ctx_DotRegolithPath context)) (fun err => err = None) ->
  succeeds I (WatchProfileImpl context) (fun r => r = (false, None)) ->
  succeeds I (call_ExportProject profile context) (fun err => err = None) ->
  succeeds I (call_RecycledExportProject profile context)
    (fun err => err = None) ->
  succeeds I (saveTmp context) (fun err => err = None) ->
  I (store w) ->
  signals w = [Some source1; Some source2; None] ->
  3 <= fuel ->
  (exists w' d,
     RunProfile fuel context w = (Return None, w') /\
     trace w' = trace w ++ d /\
     count is_sync d = 3 /\ count is_run_filters d = 1 /\
     count is_completed d = 1 /\ count is_export d = 1) /\
  (exists w' d,
     RecycledRunProfile fuel context w = (Return None, w') /\
     trace w' = trace w ++ d /\
     count is_sync d = 3 /\ count is_run_filters d = 1 /\
     count is_completed d = 1 /\ count is_export d = 1).
Proof.
  intros Hp Hclear Hsync Hrsync Hrun Hexport Hrexport Hsave HI Hsig Hfuel.
  destruct fuel as [|[|[|fuel]]]; try lia. clear Hfuel.
  split.
  - unfold RunProfile, bind.
    destruct (Hclear w HI) as [_ HI0].
    assert (signals (ClearCachedStates w).2 =
            [Some source1; Some source2; None])
      as Hsig0 by done.
    assert (trace (ClearCachedStates w).2 = trace w ++ [EvClearCachedStates])
      as Ht0 by done.
    destruct (RunProfile_start_restart context profile I Hp (S (S fuel))
                (ClearCachedStates w).2 Hsync HI0)
      as (w1 & d1 & -> & HI1 & Hs1 & Ht1 & Hc1); [by rewrite Hsig0|].
    destruct (RunProfile_start_restart context profile I Hp (S fuel) w1
                Hsync HI1)
      as (w2 & d2 & -> & HI2 & Hs2 & Ht2 & Hc2); [by rewrite Hs1, Hsig0|].
    destruct (RunProfile_start_completes context profile I Hp Hrun fuel w2
                Hsync Hexport HI2) as (w3 & d3 & -> & Ht3 & Hc3);
      [by rewrite Hs2, Hs1, Hsig0..|].
    exists w3, (EvClearCachedStates :: d1 ++ d2 ++ d3).
    split; [done|]. split.
    { rewrite Ht3, Ht2, Ht1, Ht0. by assoc_norm. }
    assert (tally (EvClearCachedStates :: d1 ++ d2 ++ d3) = (3, 1, 1, 1))
      as Ht.
    { by rewrite tally_cons, !tally_app, Hc1, Hc2, Hc3. }
    unfold tally in Ht. by injection Ht as ? ? ? ?.
  - destruct (RecycledRunProfile_restart context profile I Hp (S (S fuel)) w
                Hrsync Hsave HI)
      as (w1 & d1 & -> & HI1 & Hs1 & Ht1 & Hc1); [by rewrite Hsig|].
    destruct (RecycledRunProfile_restart context profile I Hp (S fuel) w1
                Hrsync Hsave HI1)
      as (w2 & d2 & -> & HI2 & Hs2 & Ht2 & Hc2); [by rewrite Hs1, Hsig|].
    destruct (RecycledRunProfile_completes context profile I Hp Hrun fuel w2
                Hrsync Hrexport HI2) as (w3 & d3 & -> & Ht3 & Hc3);
      [by rewrite Hs2, Hs1, Hsig..|].
    exists w3, (d1 ++ d2 ++ d3).
    split; [done|]. split.
    { rewrite Ht3, Ht2, Ht1. by assoc_norm. }
    assert (tally (d1 ++ d2 ++ d3) = (3, 1, 1, 1)) as Ht.
    { by rewrite !tally_app, Hc1, Hc2, Hc3. }
    unfold tally in Ht. by injection Ht as ? ? ? ?.
Qed.

Lemma after_setup_filters (ds dr rest : list Event) (e : Event) :
  forallb is_setup ds = true -> forallb is_filter_loop dr = true ->
  is_interrupt e = false ->
  after is_interrupt (ds ++ e :: EvRunFilters :: dr ++ rest) =
  after is_interrupt rest.
Proof.
  intros Hds Hdr He. rewrite after_setup by done. cbn. rewrite He. cbn.
  by rewrite after_filter_loop.
Qed.

Lemma observed_recycled_step (context : RunContext) (profile : Profile)
    (fuel : nat) (w wi : World) :
  GetProfile context = inr profile ->
  observed_recycled context profile w = Some wi ->
  RecycledRunProfile (S fuel) context w =
    match (saveTmp context wi).1 with
    | None => RecycledRunProfile fuel context (saveTmp context wi).2
    | Some err => (Return (Some (PassError err)), (saveTmp context wi).2)
    end /\
  exists pre obs,
    trace wi = trace w ++ EvSync true :: pre ++ [obs] /\
    after is_interrupt pre = [] /\ is_interrupt obs = true.
Proof.
  intros Hp Hobs. unfold observed_recycled, observed in Hobs.
  cbn [RecycledRunProfile]. rewrite Hp. unfold bind.
  destruct (RecycledSetupTmpFiles_shape (ctx_Config context) profile
              (ctx_DotRegolithPath context) w) as (err & st & ds & Heq & Hds).
  rewrite Heq in Hobs |- *. cbn [fst snd] in Hobs |- *.
  destruct err as [err|]; [done|].
  unfold IsInterrupted in Hobs |- *.
  cbn [fst snd store signals trace] in Hobs |- *.
  destruct (pending [] (signals w)).
  { injection Hobs as <-. split.
    - by destruct (saveTmp context _) as [[e|] w'].
    - exists ds, (EvIsInterrupted [] true). split; [by assoc_norm|].
      split; [|done]. by apply (after_none _ _ _ setup_not_interrupt). }
  match type of Hobs with context [WatchProfileImpl context ?w1] =>
    destruct (WatchProfileImpl_shape context w1)
      as (i & err & st1 & dr & Heq1 & Hdr & Hex)
  end.
  rewrite Heq1 in Hobs |- *. cbn [fst snd] in Hobs |- *.
  destruct err as [err|]; [done|].
  rewrite bool_decide_false in Hobs |- * by (by intros ?).
  destruct i.
  { injection Hobs as <-. split.
    - by destruct (saveTmp context _) as [[e|] w'].
    - exists (ds ++ EvIsInterrupted [] false :: EvRunFilters :: dr),
        (EvRunFiltersDone true false).
      split; [cbn; by assoc_norm|]. split; [|done].
      rewrite <- (app_nil_r dr). by rewrite after_setup_filters. }
  unfold call_RecycledExportProject, call, Logger_Infof, emit in Hobs |- *.
  cbn [fst snd store signals trace] in Hobs |- *.
  destruct (RecycledExportProject _ _ _ _ _) as [[eerr|] st2]; [done|].
  cbn [fst snd store signals trace] in Hobs |- *.
  destruct (pending ["data"] (tail (signals w))); [|done].
  injection Hobs as <-. split.
  - by destruct (saveTmp context _) as [[e|] w'].
  - exists (ds ++ EvIsInterrupted [] false :: EvRunFilters :: dr ++
            [EvRunFiltersDone false false;
             EvLog Info "Moving files to target directory." [];
             EvExport true]),
      (EvIsInterrupted ["data"] true).
    split; [cbn; by assoc_norm|]. split; [|done].
    by rewrite after_setup_filters.
Qed.

Ltac saves_norm :=
  repeat first [rewrite saves_app | rewrite saves_cons];
  change (saves []) with (@nil string); cbn [app].

Lemma observed_plain_step (context : RunContext) (profile : Profile)
    (fuel : nat) (w wi : World) :
  GetProfile context = inr profile ->
  observed_plain context profile w = Some wi ->
  RunProfile_start (S fuel) context w = RunProfile_start fuel context wi /\
  saves (trace wi) = saves (trace w) /\
  exists pre obs,
    trace wi = trace w ++ EvSync false :: pre ++ [obs] /\
    after is_interrupt pre = [] /\ is_interrupt obs = true.
Proof.
  intros Hp Hobs. unfold observed_plain, observed in Hobs.
  cbn [RunProfile_start]. rewrite Hp. unfold bind.
  destruct (SetupTmpFiles_shape (ctx_Config context) profile
              (ctx_DotRegolithPath context) w) as (err & st & ds & Heq & Hds).
  rewrite Heq in Hobs |- *. cbn [fst snd] in Hobs |- *.
  destruct err as [err|]; [done|].
  unfold IsInterrupted in Hobs |- *.
  cbn [fst snd store signals trace] in Hobs |- *.
  assert (saves ds = []) as Hsds.
  { apply (saves_none is_setup); [by intros [] | done]. }
  destruct (pending [] (signals w)).
  { injection Hobs as <-. split; [done|]. cbn [trace]. split.
    - saves_norm. by rewrite Hsds, !app_nil_r.
    - exists ds, (EvIsInterrupted [] true). split; [by assoc_norm|].
      split; [|done]. by apply (after_none _ _ _ setup_not_interrupt). }
  match type of Hobs with context [WatchProfileImpl context ?w1] =>
    destruct (WatchProfileImpl_shape context w1)
      as (i & err & st1 & dr & Heq1 & Hdr & Hex)
  end.
  rewrite Heq1 in Hobs |- *. cbn [fst snd] in Hobs |- *.
  destruct err as [err|]; [done|].
  rewrite bool_decide_false in Hobs |- * by (by intros ?).
  assert (saves dr = []) as Hsdr.
  { apply (saves_none is_filter_loop); [by intros [] | done]. }
  destruct i.
  { injection Hobs as <-. split; [done|]. cbn [trace]. split.
    - saves_norm. by rewrite Hsds, Hsdr, !app_nil_r.
    - exists (ds ++ EvIsInterrupted [] false :: EvRunFilters :: dr),
        (EvRunFiltersDone true false).
      split; [cbn; by assoc_norm|]. split; [|done].
      rewrite <- (app_nil_r dr). by rewrite after_setup_filters. }
  unfold call_ExportProject, call, Logger_Infof, emit in Hobs |- *.
  cbn [fst snd store signals trace] in Hobs |- *.
  destruct (ExportProject _ _ _ _ _) as [[eerr|] st2]; [done|].
  cbn [fst snd store signals trace] in Hobs |- *.
  destruct (pending ["data"] (tail (signals w))); [|done].
  injection Hobs as <-. split; [done|]. cbn [trace]. split.
  - saves_norm. by rewrite Hsds, Hsdr, !app_nil_r.
  - exists (ds ++ EvIsInterrupted [] false :: EvRunFilters :: dr ++
            [EvRunFiltersDone false false;
             EvLog Info "Moving files to target directory." [];
             EvExport false]),
      (EvIsInterrupted ["data"] true).
    split; [cbn; by assoc_norm|]. split; [|done].
    by rewrite after_setup_filters.
Qed.

Lemma RecycledRunProfile_sync_first (context : RunContext)
    (profile : Profile) (fuel : nat) (w : World) :
  GetProfile context = inr profile ->
  exists d,
    trace (RecycledRunProfile (S fuel) context w).2 =
    trace w ++ EvSync true :: d.
Proof.
  intros Hp.
  assert (forall w1 pre,
    trace w1 = trace w ++ EvSync true :: pre ->
    exists d,
      trace (match (saveTmp context w1).1 with
             | Some err => ret (Return (Some (PassError err)))
             | None => RecycledRunProfile fuel context
             end (saveTmp context w1).2).2 = trace w ++ EvSync true :: d)
    as Hsave.
  { intros w1 pre Hw1.
    destruct (saveTmp_shape context w1) as (err & st & ok & Heq & _).
    rewrite Heq. cbn [fst snd]. destruct err as [err|].
    - cbn. rewrite Hw1. eexists. by assoc_norm.
    - match goal with |- context [RecycledRunProfile fuel context ?w2] =>
        destruct (RecycledRunProfile_trace context profile fuel w2 Hp)
          as (d & -> & _)
      end.
      cbn [trace]. rewrite Hw1. eexists. by assoc_norm. }
  remember (RecycledRunProfile (S fuel) context w) as r eqn:Hr.
  cbn [RecycledRunProfile] in Hr. rewrite Hp in Hr. unfold bind in Hr.
  use_sync Hr.
  destruct err as [err|].
  { unfold ClearCachedStates, call, ret in Hr. cbn in Hr. subst r. cbn.
    eexists. by assoc_norm. }
  use_poll Hr.
  destruct (pending [] (signals w)).
  { subst r. eapply Hsave. cbn [trace]. by assoc_norm. }
  use_watch Hr.
  destruct err as [err|].
  { subst r. cbn. eexists. by assoc_norm. }
  destruct interrupted.
  { subst r. eapply Hsave. cbn [trace]. by assoc_norm. }
  unfold call_RecycledExportProject, call, Logger_Infof, emit in Hr.
  cbn [fst snd store signals trace] in Hr.
  destruct (RecycledExportProject _ _ _ _ _) as [[eerr|] st1].
  { unfold ClearCachedStates, call, ret in Hr. cbn in Hr. subst r. cbn.
    eexists. by assoc_norm. }
  cbn [fst snd store signals trace] in Hr.
  destruct (pending ["data"] (tail (signals w))).
  { subst r. eapply Hsave. cbn [trace]. by assoc_norm. }
  unfold Logger_Debugf, emit, ret in Hr. cbn in Hr. subst r. cbn.
  eexists. by assoc_norm.
Qed.

Lemma RunProfile_start_sync_first (context : RunContext)
    (profile : Profile) (fuel : nat) (w : World) :
  GetProfile context = inr profile ->
  exists d,
    trace (RunProfile_start (S fuel) context w).2 =
    trace w ++ EvSync false :: d.
Proof.
  intros Hp.
  assert (forall w1 pre,
    trace w1 = trace w ++ EvSync false :: pre ->
    exists d,
      trace (RunProfile_start fuel context w1).2 =
      trace w ++ EvSync false :: d) as Hloop.
  { intros w1 pre Hw1.
    destruct (RunProfile_start_trace context profile fuel w1 Hp)
      as (d & -> & _).
    rewrite Hw1. eexists. by assoc_norm. }
  remember (RunProfile_start (S fuel) context w) as r eqn:Hr.
  cbn [RunProfile_start] in Hr. rewrite Hp in Hr. unfold bind in Hr.
  use_sync Hr.
  destruct err as [err|].
  { unfold ret in Hr. subst r. cbn. eexists. by assoc_norm. }
  use_poll Hr.
  destruct (pending [] (signals w)).
  { subst r. eapply Hloop. cbn [trace]. by assoc_norm. }
  use_watch Hr.
  destruct err as [err|].
  { subst r. cbn. eexists. by assoc_norm. }
  destruct interrupted.
  { subst r. eapply Hloop. cbn [trace]. by assoc_norm. }
  unfold call_ExportProject, call, Logger_Infof, emit in Hr.
  cbn [fst snd store signals trace] in Hr.
  destruct (ExportProject _ _ _ _ _) as [[eerr|] st1].
  { unfold ret in Hr. subst r. cbn. eexists. by assoc_norm. }
  cbn [fst snd store signals trace] in Hr.
  destruct (pending ["data"] (tail (signals w))).
  { subst r. eapply Hloop. cbn [trace]. by assoc_norm. }
  unfold Logger_Debugf, emit, ret in Hr. cbn in Hr. subst r. cbn.
  eexists. by assoc_norm.
Qed.

(** C8 (as amended): an interruption is observed in a cycle when the
    poll after a successful sync answers yes, when the filter list returns
    interrupted, or when the poll after a successful export answers yes;
    that last poll ignores the interruptions that come from the data path.
    In [RecycledRunProfile], a cycle that observes an interruption goes on
    with the three saves of the fingerprint maps of [tmp/RP], [tmp/BP] and
    [tmp/data] and nothing in between; if they succeed the three maps are
    the persisted ones, the run continues from the label [start] and the
    next event is the sync of the next cycle; if one fails the persisted
    maps are discarded, nothing else happens and the run returns the
    error.  In [RunProfile] a cycle that observes an interruption
    continues from the label [start] with the sync of the next cycle and
    has saved nothing.  Over whole runs (second and fourth part; the loops
    of the model stop when their fuel is used up, which is the remaining
    disjunct there): whatever follows an observed interruption in
    [RecycledRunProfile] begins with the three saves, followed by the next
    sync or by the discarding and an error, and [RunProfile] never saves
    and follows every interruption by the next sync. *)
Theorem interruption_persistence (context : RunContext) (fuel : nat)
    (w : World) :
  (forall profile wi,
     GetProfile context = inr profile ->
     observed_recycled context profile w = Some wi ->
     let s := saveTmp context wi in
     let r := RecycledRunProfile (S (S fuel)) context w in
     (exists pre obs,
        trace wi = trace w ++ EvSync true :: pre ++ [obs] /\
        after is_interrupt pre = [] /\ is_interrupt obs = true) /\
     exists ok,
       trace s.2 =
         trace wi ++ save_events context ok ++
         (if all_ok ok then [] else [EvClearCachedStates]) /\
       if all_ok ok
       then s.1 = None /\
            Forall (fun root =>
                      saved (store s.2) !! root =
                      Some (default ∅ (hashes (store wi) !! root)))
              (subtrees context) /\
            r = RecycledRunProfile (S fuel) context s.2 /\
            exists d, trace r.2 = trace s.2 ++ EvSync true :: d
       else r.2 = s.2 /\ saved (store r.2) = ∅ /\
            exists err, s.1 = Some err /\
                        r.1 = Return (Some (PassError err))) /\
  (let r := RecycledRunProfile fuel context w in
   exists d,
     trace r.2 = trace w ++ d /\
     Forall (handled_recycled context r) (after is_interrupt d)) /\
  (forall profile wi,
     GetProfile context = inr profile ->
     observed_plain context profile (ClearCachedStates w).2 = Some wi ->
     let r := RunProfile (S (S fuel)) context w in
     (exists pre obs,
        trace wi =
          trace w ++ EvClearCachedStates :: EvSync false :: pre ++ [obs] /\
        after is_interrupt pre = [] /\ is_interrupt obs = true) /\
     saves (trace wi) = saves (trace w) /\
     r = RunProfile_start (S fuel) context wi /\
     exists d, trace r.2 = trace wi ++ EvSync false :: d) /\
  (let r := RunProfile fuel context w in
   exists d,
     trace r.2 = trace w ++ d /\
     saves d = [] /\
     Forall (handled_plain r) (after is_interrupt d)).
Proof.
  split; [|split; [|split]].
  - intros profile wi Hp Hobs s r.
    destruct (observed_recycled_step context profile (S fuel) w wi Hp Hobs)
      as [Hstep Hshape].
    split; [exact Hshape|].
    pose proof (saveTmp_persisted context wi) as Hpers.
    destruct (saveTmp_shape context wi) as (err & st & ok & Heq & Hok).
    exists ok. subst r. rewrite Hstep. subst s. rewrite Heq in Hpers |- *.
    cbn [fst snd trace store] in Hpers |- *. split; [done|].
    destruct (all_ok ok).
    + subst err. split; [done|]. split; [by apply Hpers|].
      split; [done|].
      match goal with |- context [RecycledRunProfile (S fuel) context ?w2] =>
        destruct (RecycledRunProfile_sync_first context profile fuel w2 Hp)
          as (d & Hd)
      end.
      by exists d.
    + destruct Hok as (Hsaved & e & ->). cbn [snd fst store].
      split; [done|]. split; [done|]. by exists e.
  - destruct (GetProfile context) as [e|profile] eqn:Hp.
    + exists []. destruct fuel; cbn; rewrite ?Hp; cbn; by rewrite app_nil_r.
    + destruct (RecycledRunProfile_trace context profile fuel w Hp)
        as (d & Ht & _ & Hall).
      by exists d.
  - intros profile wi Hp Hobs r.
    destruct (observed_plain_step context profile (S fuel) _ wi Hp Hobs)
      as (Hstep & Hsaves & pre & obs & Ht & Hpre & Hobs').
    split; [|split; [|split]].
    + exists pre, obs. split; [|done]. rewrite Ht. cbn. by assoc_norm.
    + rewrite Hsaves. unfold ClearCachedStates, call. cbn [fst snd trace].
      saves_norm. by rewrite app_nil_r.
    + done.
    + subst r. unfold RunProfile, bind. cbn [fst snd]. rewrite Hstep.
      apply (RunProfile_start_sync_first context profile fuel wi Hp).
  - destruct (GetProfile context) as [e|profile] eqn:Hp.
    + exists [EvClearCachedStates].
      unfold RunProfile, bind, ClearCachedStates, call. cbn [fst snd].
      destruct fuel; cbn; rewrite ?Hp; cbn; split; try done;
        split; try done; constructor.
    + unfold RunProfile, bind, ClearCachedStates, call. cbn [fst snd].
      match goal with |- context [RunProfile_start _ _ ?w0] =>
        destruct (RunProfile_start_trace context profile fuel w0 Hp)
          as (d & Ht & _ & Hsaves & Hall)
      end.
      exists (EvClearCachedStates :: d). cbn zeta.
      split; [rewrite Ht; cbn; by assoc_norm|].
      split; [by rewrite saves_cons|].
      done.
Qed.

(** C10: [RunProfile] first discards the persisted fingerprint maps,
    whatever the run does later: the loop starts in a world [w0] whose
    persisted maps are empty and whose files are untouched, the discarding
    is the first event of the run, and the first sync, if any, comes
    right after it. *)
Theorem RunProfile_clears_first (context : RunContext) (fuel : nat)
    (w : World) :
  let w0 := (ClearCachedStates w).2 in
  saved (store w0) = ∅ /\
  fs (store w0) = fs (store w) /\
  trace w0 = trace w ++ [EvClearCachedStates] /\
  RunProfile fuel context w = RunProfile_start fuel context w0 /\
  exists d,
    trace (RunProfile fuel context w).2 =
      trace w ++ EvClearCachedStates :: d /\
    (d = [] \/ exists d', d = EvSync false :: d').
Proof.
  cbn zeta. split; [done|]. split; [done|]. split; [done|].
  split; [done|].
  unfold RunProfile, bind. cbn [fst snd].
  destruct (GetProfile context) as [e|profile] eqn:Hp.
  - exists []. destruct fuel; cbn; rewrite ?Hp; cbn; eauto.
  - destruct (RunProfile_start_trace context profile fuel
                (ClearCachedStates w).2 Hp) as (d & Ht & Hhead & _).
    exists d. split.
    + rewrite Ht. cbn. by assoc_norm.
    + destruct Hhead as [[-> _]|?]; eauto.
Qed.


Lemma subfilterCollection_loop (f : Filter) (url dot content : string)
    (manifest : gmap string JSON) (filters : list JSON) (w : World) :
  (ioutil_ReadFile (manifest_path f dot) w).1 = inr content ->
  json_Unmarshal content = inr manifest ->
  manifest !! "filters" = Some (JArray filters) ->
  (subfilterCollection f url dot w).1 =
  subfilters_from f url (manifest_path f dot) 0 filters [].
Proof.
  intros Hread Hjson Hfilters.
  unfold subfilterCollection, bind. fold (manifest_path f dot).
  rewrite Hread, Hjson, Hfilters. done.
Qed.

(** C2: if expanding the manifest produces, at some index [n], a child
    that is a [RemoteFilter] (every entry before it having produced a
    child), [subfilterCollection] fails with the forbidden-recursion
    error, reported at the first index [k <= n] whose child is remote.
    Nothing is assumed about what the remote child's own manifest holds,
    so this covers every nesting depth. *)
Theorem subfilterCollection_rejects_remote (f : Filter)
    (url dot content : string) (manifest : gmap string JSON)
    (filters : list JSON) (n : nat) (r : FilterRunner) (w : World) :
  (ioutil_ReadFile (manifest_path f dot) w).1 = inr content ->
  json_Unmarshal content = inr manifest ->
  manifest !! "filters" = Some (JArray filters) ->
  (forall j, j < n -> is_Some (filters !! j ≫= child f j)) ->
  filters !! n ≫= child f n = Some r ->
  is_RemoteFilter r = true ->
  exists k,
    k <= n /\
    (subfilterCollection f url dot w).1 =
      inl (remoteInRemoteError f (manifest_path f dot) k).
Proof.
  intros Hread Hjson Hfilters Hbefore Hn Hr.
  rewrite (subfilterCollection_loop f url dot content manifest filters w)
    by done.
  destruct (subfilters_from_remote f url (manifest_path f dot) filters n 0 []
              r Hbefore Hn Hr) as (k & r' & Hk & _ & _ & Hres).
  exists k. by split.
Qed.

(** C4: when every one of the [N] entries of the manifest is an object
    for which a runner that is not remote is constructed, and the runner
    constructor takes the identifier from the key "filter" of the object
    it is given, [subfilterCollection] returns exactly [N] runners, the
    [j]-th with identifier "P:subfilter<j>" (P the parent's identifier)
    and with the parent's arguments and settings. *)
Theorem subfilterCollection_children (f : Filter)
    (url dot content : string) (manifest : gmap string JSON)
    (filters : list JSON) (w : World) :
  (forall inst obj r id,
     CreateFilterRunner inst obj = inr r ->
     obj !! "filter" = Some (JString id) -> GetId r = id) ->
  (ioutil_ReadFile (manifest_path f dot) w).1 = inr content ->
  json_Unmarshal content = inr manifest ->
  manifest !! "filters" = Some (JArray filters) ->
  (forall j e, filters !! j = Some e ->
     exists r, child f j e = Some r /\ is_RemoteFilter r = false) ->
  exists children,
    (subfilterCollection f url dot w).1 = inr {| Filters := children |} /\
    length children = length filters /\
    forall j, j < length filters ->
      exists r,
        children !! j = Some r /\
        GetId r = Id f +:+ ":subfilter" +:+ pretty j /\
        Arguments (base r) = Arguments f /\
        Settings (base r) = Settings f.
Proof.
  intros Hid Hread Hjson Hfilters Hall.
  rewrite (subfilterCollection_loop f url dot content manifest filters w)
    by done.
  destruct (subfilters_from_children f url (manifest_path f dot) filters 0 []
              Hid Hall) as (children & Hres & Hlen & Hchildren).
  exists children. split; [done|]. split; [done|].
  intros j Hj. rewrite <- Hlen in Hj.
  destruct (lookup_lt_is_Some_2 children j Hj) as [r Hr].
  exists r. split; [done|].
  by destruct (Hchildren j r Hr) as (? & ? & ? & _).
Qed.


End RunnerFacts.

(** * The workspace of [SetupTmpFiles] *)
Section SyncFacts.
Import Regolith.
Context `{Externals}.





























End SyncFacts.

(** * The embedding on concrete inputs *)
Section Witnesses.
Import Regolith.

Lemma subfilterCollection_rejects_remote_witness :
  exists k,
    k <= 1 /\
    (@subfilterCollection (mock manifest_nested None) parent
       "github.com/user/P" ".regolith" (world_of installed [])).1 =
      inl (@remoteInRemoteError parent
             ".regolith/cache/filters/P/filter.json" k).
Proof.
  apply (@subfilterCollection_rejects_remote (mock manifest_nested None)
           parent "github.com/user/P" ".regolith" "{}" manifest_nested
           [JObject {[ "runWith" := JString "python" ]};
            JObject {[ "url" := JString "github.com/user/pack" ]}]
           1
           (RemoteFilter {| Id := "P:subfilter1"; Disabled := false;
                            Arguments := []; Settings := ∅ |}
              "github.com/user/pack")).
  - reflexivity.
  - reflexivity.
  - reflexivity.
  - intros [|j] Hj; [vm_compute; eauto | lia].
  - reflexivity.
  - reflexivity.
Defined.

Lemma create_reads_filter_key (inst : FilterDefinition)
    (obj : gmap string JSON) (r : FilterRunner) (id : string) :
  create inst obj = inr r ->
  obj !! "filter" = Some (JString id) -> GetId r = id.
Proof.
  unfold create. intros Hc Hid. rewrite Hid in Hc.
  injection Hc as <-. by destruct inst.
Qed.

Lemma subfilterCollection_children_witness :
  exists children,
    (@subfilterCollection (mock manifest_local None) parent
       "github.com/user/P" ".regolith" (world_of installed [])).1 =
      inr {| Filters := children |} /\
    length children = 2 /\
    forall j, j < 2 ->
      exists r,
        children !! j = Some r /\
        GetId r = "P" +:+ ":subfilter" +:+ pretty j /\
        Arguments (base r) = ["--fast"] /\
        Settings (base r) = {[ "scale" := JNumber 2 ]}.
Proof.
  apply (@subfilterCollection_children (mock manifest_local None)
           parent "github.com/user/P" ".regolith" "{}" manifest_local
           [JObject {[ "runWith" := JString "python" ]};
            JObject {[ "runWith" := JString "nodejs" ]}]).
  - exact create_reads_filter_key.
  - reflexivity.
  - reflexivity.
  - reflexivity.
  - intros [|[|j]] e He; cbn in He; try done; injection He as <-;
      vm_compute; eauto.
Defined.

Lemma WatchProfileImpl_runs_enabled_in_order_witness :
  let r := @WatchProfileImpl (mock ∅ None)
             (context_of [named "A" true; named "B" false])
             (world_of empty_store []) in
  r.1 = (false, None) /\ ran (trace r.2) = [named "B" false].
Proof.
  destruct (@WatchProfileImpl_runs_enabled_in_order (mock ∅ None)
              (context_of [named "A" true; named "B" false])
              (profile_of [named "A" true; named "B" false])
              (world_of empty_store []) eq_refl) as [_ Hall].
  apply Hall. intros f s Hf.
  apply list_elem_of_singleton in Hf. by subst f.
Defined.

Lemma WatchProfileImpl_filter_error_witness :
  let r := @WatchProfileImpl (mock ∅ None)
             (context_of [named "A" false; named "crash" false;
                          named "B" false])
             (world_of empty_store []) in
  r.1 = (false,
         Some (WrapErrorf (ExternalError "exit status 1")
                 filterRunnerRunError ["crash"])) /\
  ran (trace r.2) = [named "A" false; named "crash" false] /\
  saved (store r.2) = ∅ /\
  exists t, trace r.2 =
            t ++ [EvRun (named "crash" false);
                  EvLog Debug "Executed in %s" [];
                  EvClearCachedStates; EvRunFiltersDone false true].
Proof.
  apply (@WatchProfileImpl_filter_error (mock ∅ None)
           (context_of [named "A" false; named "crash" false;
                        named "B" false])
           (profile_of [named "A" false; named "crash" false;
                        named "B" false])
           [named "A" false] [named "B" false] (named "crash" false)
           (ExternalError "exit status 1") (world_of empty_store []));
    reflexivity.
Defined.


Lemma interruption_loop_shape_witness :
  let context := context_of [named "A" false] in
  let w := world_of {| fs := synced; hashes := ∅; saved := ∅ |}
             [Some "RP"; Some "BP"; None] in
  (exists w' d,
     @RunProfile (mock ∅ None) 3 context w = (Return None, w') /\
     trace w' = trace w ++ d /\
     count is_sync d = 3 /\ count is_run_filters d = 1 /\
     count is_completed d = 1 /\ count is_export d = 1) /\
  (exists w' d,
     @RecycledRunProfile (mock ∅ None) 3 context w = (Return None, w') /\
     trace w' = trace w ++ d /\
     count is_sync d = 3 /\ count is_run_filters d = 1 /\
     count is_completed d = 1 /\ count is_export d = 1).
Proof.
  intros context w.
  apply (@interruption_loop_shape (mock ∅ None) context
           (profile_of [named "A" false]) (fun s => fs s = synced) 3 w
           "RP" "BP").
  - reflexivity.
  - intros [[f h sv] sg tr] HI. cbn in HI. subst f. done.
  - intros [[f h sv] sg tr] HI. cbn in HI. subst f. vm_compute. done.
  - intros [[f h sv] sg tr] HI. cbn in HI. subst f. vm_compute. done.
  - intros [[f h sv] sg tr] HI. cbn in HI. subst f. vm_compute. done.
  - intros [[f h sv] sg tr] HI. cbn in HI. subst f. done.
  - intros [[f h sv] sg tr] HI. cbn in HI. subst f. done.
  - intros [[f h sv] sg tr] HI. cbn in HI. subst f. done.
  - reflexivity.
  - reflexivity.
  - lia.
Defined.

(** Gathering emits one locator per reference, without removing
    duplicates. *)
Example GatherDependencies_no_dedup :
  @Src.GatherDependencies
    {| Src.getter_Get := fun dst _ ps => (None, {[dst]} ∪ ps);
       Src.os_MkdirAll := fun path ps => (None, {[path]} ∪ ps);
       Src.LoadConfig :=
         {| Src.Profiles :=
              [("dev", {| Src.Filters :=
                            [{| Src.Url := ""; Src.Filter := "texture_list" |};
                             {| Src.Url := "github.com/u/f"; Src.Filter := "" |}] |});
               ("build", {| Src.Filters :=
                            [{| Src.Url := ""; Src.Filter := "texture_list" |}] |})] |} |}
  = ["github.com/Bedrock-OSS/regolith-filters//texture_list";
     "github.com/u/f";
     "github.com/Bedrock-OSS/regolith-filters//texture_list"].
Proof. reflexivity. Qed.

(** A full sync of a project whose resource folder is missing and whose
    data path is a file: the missing folder is replaced by an empty
    directory with a warning, the file makes the sync fail. *)
Example SetupTmpFiles_missing_then_file :
  let config := {| Name := "project"; ResourceFolder := "packs/RP";
                   BehaviorFolder := ""; DataPath := "packs/data";
                   Profiles := ∅ |} in
  let w := world_of {| fs := {[ "packs/data" := File "not a folder";
                                ".regolith/tmp/RP/old.json" := File "{}" ]};
                       hashes := ∅; saved := ∅ |} [] in
  let r := @SetupTmpFiles (mock ∅ None) config (profile_of []) ".regolith" w in
  r.1 = Some (WrapErrorf (WrappedErrorf isDirNotADirError ["packs/data"])
                (Text "Failed to setup data folder in the temporary directory.")
                []) /\
  warnings (trace r.2) =
    [("%s %q does not exist", ["resource folder"; "packs/RP"])] /\
  fs (store r.2) =
    {[ "packs/data" := File "not a folder";
       ".regolith/tmp" := Dir; ".regolith/tmp/RP" := Dir;
       ".regolith/tmp/BP" := Dir ]}.
Proof. vm_compute. done. Qed.

(** When discarding the fingerprint maps fails too, its error is the one
    wrapped with the identifier of the failed filter. *)
Example WatchProfileImpl_clear_fault :
  (@WatchProfileImpl (mock ∅ (Some (ExternalError "cache is locked")))
     (context_of [named "crash" false; named "B" false])
     (world_of empty_store [])).1 =
  (false,
   Some (WrapErrorf
           (WrapError (ExternalError "cache is locked") clearCachedStatesError)
           filterRunnerRunError ["crash"])).
Proof. reflexivity. Qed.

(** An interrupting filter stops the list: the later filter does not
    run. *)
Example WatchProfileImpl_interrupted :
  let r := @WatchProfileImpl (mock ∅ None)
             (context_of [named "A" false; named "watch" false;
                          named "B" false])
             (world_of empty_store []) in
  r.1 = (true, None) /\
  map GetId (ran (trace r.2)) = ["A"; "watch"].
Proof. vm_compute. done. Qed.

(** Identifiers of the sub-filters are numbered in decimal. *)
Example subfilterId_decimal :
  subfilterId parent 0 = "P:subfilter0" /\
  subfilterId parent 10 = "P:subfilter10".
Proof. vm_compute. done. Qed.

Lemma interruption_persistence_witness :
  let context := context_of [named "A" false] in
  let profile := profile_of [named "A" false] in
  let w := world_of empty_store [Some "RP"] in
  let r := @RecycledRunProfile (mock ∅ None) 2 context w in
  exists wi,
    @observed_recycled (mock ∅ None) context profile w = Some wi /\
    let s := @saveTmp (mock ∅ None) context wi in
    Forall (fun root =>
              saved (store s.2) !! root =
              Some (default ∅ (hashes (store wi) !! root)))
      (subtrees context) /\
    r = @RecycledRunProfile (mock ∅ None) 1 context s.2 /\
    exists d,
      trace r.2 =
      trace wi ++ save_events context (true, true, true) ++ EvSync true :: d.
Proof.
  intros context profile w r. subst r. eexists. split; [reflexivity|].
  destruct (@interruption_persistence (mock ∅ None) context 0 w)
    as [Hrecycled _].
  destruct (Hrecycled profile _ eq_refl eq_refl) as [_ (ok & Ht & Hcase)].
  destruct ok as [[[] []] []]; cbn [all_ok fst snd andb] in Hcase, Ht.
  1: { destruct Hcase as (_ & Hpers & Hr & d & Hd).
       split; [exact Hpers|]. split; [exact Hr|]. exists d.
       rewrite Hd, Ht. by rewrite app_nil_r, <- app_assoc. }
  all: destruct Hcase as (_ & _ & err & Herr & _);
    vm_compute in Herr; discriminate Herr.
Defined.

(** C8 (as stated) fails: a change of the data path that is pending when
    the export returns is not an interruption, because the poll after the
    export ignores the data path.  The run completes with [nil] after its
    single sync and nothing is saved or persisted, in either mode. *)
Lemma data_path_change_not_persisted :
  let context := context_of [named "A" false] in
  let profile := profile_of [named "A" false] in
  let w := world_of empty_store [None; Some "data"] in
  let r := @RecycledRunProfile (mock ∅ None) 2 context w in
  let r' := @RunProfile (mock ∅ None) 2 context w in
  @observed_recycled (mock ∅ None) context profile w = None /\
  r.1 = Return None /\ r'.1 = Return None /\
  last (removelast (trace r.2)) = Some (EvIsInterrupted ["data"] false) /\
  saves (trace r.2) = [] /\ saved (store r.2) = ∅ /\
  count is_sync (trace r.2) = 1 /\ count is_sync (trace r'.2) = 1.
Proof. vm_compute. repeat split. Qed.

(** The same change coming from the resource pack is one: the three
    fingerprint maps are saved and the workspace is synced again. *)
Example resource_change_persisted :
  let context := context_of [named "A" false] in
  let w := world_of empty_store [None; Some "RP"] in
  let r := @RecycledRunProfile (mock ∅ None) 2 context w in
  r.1 = Return None /\
  saves (trace r.2) = subtrees context /\
  count is_sync (trace r.2) = 2.
Proof. vm_compute. repeat split. Qed.

(** A saved workspace: an interruption after the sync in recycled mode
    persists the three subtrees and loops. *)
Example RecycledRunProfile_saves :
  let r := @RecycledRunProfile (mock ∅ None) 2
             (context_of [named "A" false])
             (world_of empty_store [Some "RP"]) in
  r.1 = Return None /\
  saves (trace r.2) =
    [".regolith/tmp/RP"; ".regolith/tmp/BP"; ".regolith/tmp/data"] /\
  dom (saved (store r.2)) =
    {[ ".regolith/tmp/RP"; ".regolith/tmp/BP"; ".regolith/tmp/data" ]}.
Proof. vm_compute. done. Qed.

Lemma InstallDependencies_mkdir_failure_witness :
  (exists s',
     @Src.InstallDependencies Src.mkdir_fails Src.fresh = Src.Exited s') /\
  Src.fetches (Src.final (@Src.InstallDependencies Src.mkdir_fails
                            Src.fresh)) = [].
Proof.
  apply (@InstallDependencies_mkdir_failure Src.mkdir_fails Src.fresh
           (ExternalError "permission denied")).
  reflexivity.
Defined.


(** On that machine both locators are fetched, in order. *)
Example InstallDependencies_fetches_all :
  Src.fetches (Src.final (@Src.InstallDependencies Src.fetch_sample
                            Src.fresh)) =
  [Src.Fetch ".regolith/cache/github.com/u/f" "github.com/u/f";
   Src.Fetch
     ".regolith/cache/github.com/Bedrock-OSS/regolith-filters//texture_list"
     "github.com/Bedrock-OSS/regolith-filters//texture_list"].
Proof. vm_compute. done. Qed.


End Witnesses.
